(** * Custom Promotional Scheme: scheme matching, eligibility and reporting

    A shallow embedding of

      - [promotional_scheme/doctype/custom_promotional_scheme/custom_promotional_scheme.py]
        (save-time validation and the invoice submission hook), and
      - [promotional_scheme/report/custom_promotional_scheme_report/custom_promotional_scheme_report.py]
        (the aggregation report),

    followed by the properties of the specification stated over it.

    Conventions of the embedding.
      - Python sets of strings are [gset string]; dictionaries keyed by a
        pair are [gmap]; lists are lists.
      - Amounts, quantities and percentages are binary64 floating-point
        numbers ([float], the type of Python's [float]), with the machine's
        arithmetic and comparisons; the integer literals of the source
        ([0], [100.0]) are their float values.  [flt], the host's float
        normaliser, maps an absent value to [0] and is the identity on
        numbers.
      - An attribute that may be absent or [None] is an [option]; Python
        truthiness is written out ([truthy_str], [truthy_num], ...).
      - Dates are day ordinals ([Z]), as [date.toordinal] gives them.
      - A reference to a line of [doc.items] is its position in that list, so
        in-place mutation through [matching_items] is an update at that
        position. *)

From Stdlib Require Import Floats.
From stdpp Require Import base decidable option numbers list sorting gmap strings pretty.

Local Open Scope string_scope.
Local Open Scope float_scope.

(** ** Comparisons of floats as propositions

    Python's [a < b], [a <= b] and [a == b] on floats; [a >= b] is
    [b <= a].  Every comparison with a NaN is false. *)
Module F.

Definition lt (a b : float) : Prop := PrimFloat.ltb a b = true.
Definition le (a b : float) : Prop := PrimFloat.leb a b = true.
Definition eq (a b : float) : Prop := PrimFloat.eqb a b = true.

End F.

Infix "<" := F.lt : float_scope.
Infix "≤" := F.le : float_scope.

(** ** Python values and truthiness *)

Inductive pyval : Type :=
  | PNone
  | PStr (s : string)
  | PInt (z : Z).

Definition truthy_str (s : string) : bool :=
  negb (String.eqb s "").

Definition truthy_ostr (o : option string) : bool :=
  match o with
  | Some s => truthy_str s
  | None => false
  end.

Definition truthy (v : pyval) : bool :=
  match v with
  | PNone => false
  | PStr s => truthy_str s
  | PInt z => negb (Z.eqb z 0)
  end.

Definition py_str (v : pyval) : string :=
  match v with
  | PNone => "None"
  | PStr s => s
  | PInt z => pretty z
  end.

Definition truthy_num (o : option float) : bool :=
  match o with
  | Some q => negb (PrimFloat.eqb q 0)
  | None => false
  end.

(** [flt(x)]: [None] becomes [0]. *)
Definition flt (o : option float) : float := default 0 o.

(** [x or 0] on a number that may be absent. *)
Definition or_zero (o : option float) : option float :=
  if truthy_num o then o else Some 0.

Definition truthy_set (s : gset string) : bool :=
  bool_decide (0 < size s)%nat.

Definition py_in (x : string) (s : gset string) : bool :=
  bool_decide (x ∈ s).

(** ** Child tables of a scheme document *)

(** A child row as a dictionary, in key order. *)
Definition row_dict : Type := list (string * pyval).

(** The value of a child-table field: a plain list of strings (some
    multiselect styles) or a list of dict-like rows.  Lists mixing the two
    shapes are not values of this type. *)
Inductive child_rows : Type :=
  | StrRows (l : list string)
  | DictRows (l : list row_dict).

Fixpoint dict_get (d : row_dict) (k : string) : option pyval :=
  match d with
  | [] => None
  | (k', v) :: d' => if String.eqb k' k then Some v else dict_get d' k
  end.

Definition meta_key (k : string) : bool :=
  bool_decide (k ∈ ["idx"; "name"; "parent"; "parentfield"; "parenttype"; "doctype"]).

(** [for k in possible_keys: if k in row_dict and row_dict.get(k): ...; break] *)
Fixpoint first_by_keys (d : row_dict) (possible_keys : list string) : option string :=
  match possible_keys with
  | [] => None
  | k :: ks =>
      match dict_get d k with
      | Some v => if truthy v then Some (py_str v) else first_by_keys d ks
      | None => first_by_keys d ks
      end
  end.

(** The [else] of that loop: the first non-meta truthy value. *)
Fixpoint first_non_meta (d : row_dict) : option string :=
  match d with
  | [] => None
  | (k2, v2) :: d' =>
      if meta_key k2 then first_non_meta d'
      else if truthy v2 then Some (py_str v2)
      else first_non_meta d'
  end.

Definition row_value (d : row_dict) (possible_keys : list string) : option string :=
  match first_by_keys d possible_keys with
  | Some s => Some s
  | None => first_non_meta d
  end.

(** ** Documents *)

Definition date : Type := Z.

Record SchemeDoc : Type := {
  name : string;
  scheme_name : option string;
  select_the_party : option string;
  valid_from : option date;
  valid_to : option date;
  apply_on : option string;
  type_of_promo_validation : option string;
  minimum_amount : option float;
  discount_percentage : option float;
  minimum_quantity : option float;
  free_quantity : option float;
  customer : child_rows;
  customer_group : child_rows;
  territory : child_rows;
  supplier : child_rows;
  supplier_group : child_rows;
  promotional_scheme_on_item_code : child_rows;
  promotional_scheme_on_item_group : child_rows
}.

(** A line of an invoice ([doc.items]).  [li_] prefixes keep the field names
    apart from those of the scheme. *)
Record LineItem : Type := {
  item_code : option string;
  item_name : option string;
  qty : option float;
  rate : option float;
  amount : option float;
  base_rate : option float;
  base_amount : option float;
  base_net_amount : option float;
  li_discount_percentage : option float;
  promotional_scheme_applied : option string;
  is_free_item : bool
}.

Record Invoice : Type := {
  doctype : string;
  inv_customer : option string;
  inv_customer_group : option string;
  inv_territory : option string;
  inv_supplier : option string;
  inv_supplier_group : option string;
  items : list LineItem
}.

(** The party and item catalog of the host. *)
Record CustomerRec : Type := {
  cust_name : string;
  cust_group : option string;
  cust_territory : option string
}.

Record SupplierRec : Type := {
  supp_name : string;
  supp_group : option string
}.

Record ItemRec : Type := {
  it_name : string;
  it_group : option string
}.

Record Catalog : Type := {
  cat_customers : list CustomerRec;
  cat_suppliers : list SupplierRec;
  cat_items : list ItemRec
}.

(** [frappe.get_all(doctype, filters={field: ["in", values]}, pluck="name")]:
    the names of the records whose field is one of the values. *)
Definition in_filter (o : option string) (values : gset string) : bool :=
  match o with
  | Some g => py_in g values
  | None => false
  end.

Definition customers_by_group (c : Catalog) (groups : gset string) : list string :=
  cust_name <$> filter (λ r, in_filter (cust_group r) groups = true) (cat_customers c).

Definition customers_by_territory (c : Catalog) (ts : gset string) : list string :=
  cust_name <$> filter (λ r, in_filter (cust_territory r) ts = true) (cat_customers c).

Definition suppliers_by_group (c : Catalog) (groups : gset string) : list string :=
  supp_name <$> filter (λ r, in_filter (supp_group r) groups = true) (cat_suppliers c).

Definition items_by_group (c : Catalog) (groups : gset string) : list string :=
  it_name <$> filter (λ r, in_filter (it_group r) groups = true) (cat_items c).

(** The dictionary returned by [_extract_party_values_from_scheme]. *)
Record PartiesDict : Type := {
  customers : gset string;
  customer_groups : gset string;
  territories : gset string;
  suppliers : gset string;
  supplier_groups : gset string
}.

Definition parties_values (p : PartiesDict) : list (gset string) :=
  [customers p; customer_groups p; territories p; suppliers p; supplier_groups p].

(** ** The host

    The document store is the list of the scheme documents in the order in
    which the query at hand lists them: [ORDER BY creation DESC] for the
    scheme query of the report, the host's order for the filtered read of
    the hook.  Two things the sources leave to the host and to the
    interpreter are parameters of the embedding. *)

(** What the filtered read [frappe.get_all] does with a document whose date
    field is unset, under a range filter [field <= bound] or
    [field >= bound]: whether the document passes. *)
Record HostDb : Type := {
  unset_le : date → bool;
  unset_ge : date → bool
}.

(** The order in which a [set] of strings is iterated: some enumeration of
    its elements, each once. *)
Record SetOrder : Type := {
  iter_set : gset string → list string;
  iter_set_perm : ∀ s, iter_set s ≡ₚ elements s
}.

(** ** Results of fallible operations ([frappe.throw]) *)

Inductive result (A : Type) : Type :=
  | Ok (a : A)
  | Throw (msg : string).
Arguments Ok {A} a.
Arguments Throw {A} msg.

Definition bind {A B : Type} (r : result A) (k : A → result B) : result B :=
  match r with
  | Ok a => k a
  | Throw msg => Throw msg
  end.

Notation "r ;;; k" := (bind r (λ _, k)) (at level 100, k at level 200, right associativity).

Definition raises {A : Type} (r : result A) : Prop :=
  ∃ msg, r = Throw msg.

(** ** Notices shown to the user ([frappe.msgprint]) *)

Inductive Notice : Type :=
  | DiscountApplied (scheme : string) (discount_pct : float)
  | FreeQuantityAdded (scheme : string) (free_qty : float).

(** ** References to invoice lines *)

(** Positions (from [n] on) of the lines that satisfy [p]: the list
    comprehension [[it for it in doc.items if p(it)]], as references. *)
Fixpoint positions_from (n : nat) (p : LineItem → bool) (l : list LineItem) : list nat :=
  match l with
  | [] => []
  | it :: l' =>
      if p it then n :: positions_from (S n) p l' else positions_from (S n) p l'
  end.

(** The lines a list of references points to. *)
Definition deref (its : list LineItem) (refs : list nat) : list LineItem :=
  omap (λ i, its !! i) refs.

(** The built-in [sum] on floats: it starts from [0] and adds the terms from
    left to right, each addition rounded to binary64 (CPython up to 3.11;
    from 3.12 on the interpreter also carries a correction term for the
    rounding errors of the partial sums, which this embedding leaves
    out). *)
Definition py_sum (l : list float) : float := foldl PrimFloat.add 0 l.

(** * The scheme document and the submission hook
    ([custom_promotional_scheme.py]) *)
Module Doctype.

(** *** Save-time validation *)

Definition rows_truthy (r : child_rows) : bool :=
  match r with
  | StrRows l => negb (bool_decide (l = []))
  | DictRows l => negb (bool_decide (l = []))
  end.

Definition validate_apply_on_exclusivity (self : SchemeDoc) : result unit :=
  if bool_decide (apply_on self = Some "Item Code")
     && rows_truthy (promotional_scheme_on_item_group self)
  then Throw "You selected 'Item Code' but added rows in 'Promotional scheme on item group'. Please clear them."
  else if bool_decide (apply_on self = Some "Item Group")
          && rows_truthy (promotional_scheme_on_item_code self)
  then Throw "You selected 'Item Group' but added rows in 'Promotional scheme on item code'. Please clear them."
  else Ok tt.

Definition validate_dates (self : SchemeDoc) : result unit :=
  match valid_from self, valid_to self with
  | Some f, Some t =>
      if bool_decide (t < f)%Z
      then Throw "Valid From date cannot be later than Valid To date."
      else Ok tt
  | _, _ => Ok tt
  end.

Definition validate_condition_fields (self : SchemeDoc) : result unit :=
  if bool_decide (type_of_promo_validation self = Some "Based on Minimum Amount") then
    if negb (truthy_num (minimum_amount self)) || negb (truthy_num (discount_percentage self))
    then Throw "Please specify both Minimum Amount and Discount Percentage."
    else Ok tt
  else if bool_decide (type_of_promo_validation self = Some "Based on Minimum Quantity") then
    if negb (truthy_num (minimum_quantity self)) || negb (truthy_num (free_quantity self))
    then Throw "Please specify both Minimum Quantity and Free Quantity."
    else Ok tt
  else Ok tt.

Definition validate (self : SchemeDoc) : result unit :=
  validate_dates self ;;;
  validate_condition_fields self ;;;
  validate_apply_on_exclusivity self.

(** *** Active schemes *)

(** The range filters [["<=", today]] and [[">=", today]] of the filtered
    read: a stored date is compared with the bound as the operator says; a
    document whose date is unset is left to the host. *)
Definition filter_le (host : HostDb) (stored : option date) (bound : date) : bool :=
  match stored with
  | Some d => bool_decide (d ≤ bound)%Z
  | None => unset_le host bound
  end.

Definition filter_ge (host : HostDb) (stored : option date) (bound : date) : bool :=
  match stored with
  | Some d => bool_decide (bound ≤ d)%Z
  | None => unset_ge host bound
  end.

Definition active_filter
    (host : HostDb) (party_type : string) (today : date) (s : SchemeDoc) : bool :=
  bool_decide (select_the_party s = Some party_type)
  && filter_le host (valid_from s) today
  && filter_ge host (valid_to s) today.

(** [frappe.get_all] with the party side and the two range filters,
    plucking the names. *)
Definition get_active_schemes_for_party
    (host : HostDb) (store : list SchemeDoc) (today : date) (party_type : string)
    : list string :=
  name <$> filter (λ s, active_filter host party_type today s = true) store.

(** [frappe.get_doc("Custom Promotional Scheme", scheme_name)]; [None] is
    the exception the hook catches. *)
Definition get_doc (store : list SchemeDoc) (scheme_name : string) : option SchemeDoc :=
  find (λ s, String.eqb (name s) scheme_name) store.

(** *** Utility helpers *)

Definition _extract_values_from_child_rows
    (rows : child_rows) (possible_keys : list string) : gset string :=
  match rows with
  | StrRows l => list_to_set l
  | DictRows l => list_to_set (omap (λ d, row_value d possible_keys) l)
  end.

Definition _extract_item_codes_from_scheme (cat : Catalog) (scheme_doc : SchemeDoc) : gset string :=
  let item_code_vals :=
    _extract_values_from_child_rows (promotional_scheme_on_item_code scheme_doc)
      ["item_code"; "item"] in
  let item_group_vals :=
    _extract_values_from_child_rows (promotional_scheme_on_item_group scheme_doc)
      ["item_group"; "group"] in
  if truthy_set item_group_vals
  then item_code_vals ∪ list_to_set (items_by_group cat item_group_vals)
  else item_code_vals.

Definition _extract_party_values_from_scheme (scheme_doc : SchemeDoc) : PartiesDict :=
  {| customers :=
       _extract_values_from_child_rows (customer scheme_doc) ["customer"; "item"; "value"];
     customer_groups :=
       _extract_values_from_child_rows (customer_group scheme_doc)
         ["customer_group"; "item"; "value"; "group"];
     territories :=
       _extract_values_from_child_rows (territory scheme_doc) ["territory"; "item"; "value"];
     suppliers :=
       _extract_values_from_child_rows (supplier scheme_doc) ["supplier"; "item"; "value"];
     supplier_groups :=
       _extract_values_from_child_rows (supplier_group scheme_doc)
         ["supplier_group"; "item"; "value"; "group"] |}.

(** *** Party match *)

(** [S and (not attr or str(attr) not in S)]: a declared dimension the
    invoice fails. *)
Definition dimension_fails (declared : gset string) (attr : option string) : bool :=
  truthy_set declared
  && (negb (truthy_ostr attr)
      || match attr with
         | Some a => negb (py_in a declared)
         | None => true
         end).

Definition _invoice_party_matches (doc : Invoice) (parties_dict : PartiesDict) : bool :=
  let has_any_party_limit :=
    existsb (λ v, bool_decide (0 < size v)%nat) (parties_values parties_dict) in
  if negb has_any_party_limit then true
  else if String.eqb (doctype doc) "Sales Invoice"
          && dimension_fails (customers parties_dict) (inv_customer doc)
  then false
  else if String.eqb (doctype doc) "Sales Invoice"
          && dimension_fails (customer_groups parties_dict) (inv_customer_group doc)
  then false
  else if String.eqb (doctype doc) "Sales Invoice"
          && dimension_fails (territories parties_dict) (inv_territory doc)
  then false
  else if String.eqb (doctype doc) "Purchase Invoice"
          && dimension_fails (suppliers parties_dict) (inv_supplier doc)
  then false
  else if String.eqb (doctype doc) "Purchase Invoice"
          && dimension_fails (supplier_groups parties_dict) (inv_supplier_group doc)
  then false
  else true.

(** *** Effects on the invoice *)

Definition set_items (doc : Invoice) (its : list LineItem) : Invoice :=
  {| doctype := doctype doc;
     inv_customer := inv_customer doc;
     inv_customer_group := inv_customer_group doc;
     inv_territory := inv_territory doc;
     inv_supplier := inv_supplier doc;
     inv_supplier_group := inv_supplier_group doc;
     items := its |}.

(** The body of the loop of [apply_discount_to_invoice] on one line. *)
Definition discount_line (discount_pct : float) (scheme_name : string) (it : LineItem) : LineItem :=
  let original_rate := flt (rate it) in
  let discount_value := original_rate * (discount_pct / 100) in
  {| item_code := item_code it;
     item_name := item_name it;
     qty := qty it;
     rate := Some (original_rate - discount_value);
     amount := amount it;
     base_rate := base_rate it;
     base_amount := base_amount it;
     base_net_amount := base_net_amount it;
     li_discount_percentage := Some discount_pct;
     promotional_scheme_applied := Some scheme_name;
     is_free_item := is_free_item it |}.

Definition apply_discount_to_invoice
    (doc : Invoice) (matching_items : list nat) (discount_pct : float) (scheme_name : string)
    : Invoice :=
  set_items doc
    (foldl (λ its i, alter (discount_line discount_pct scheme_name) i its)
       (items doc) matching_items).

(** [new_row] of [add_free_items_to_invoice]; the keys it does not set are
    absent on the appended line. *)
Definition free_row (it : LineItem) (free_qty : float) (scheme_name : string) : LineItem :=
  {| item_code := item_code it;
     item_name := item_name it;
     qty := Some free_qty;
     rate := Some 0;
     amount := Some 0;
     base_rate := Some 0;
     base_amount := Some 0;
     base_net_amount := None;
     li_discount_percentage := None;
     promotional_scheme_applied := Some scheme_name;
     is_free_item := true |}.

(** A reference outside [doc.items] points to no line and adds nothing;
    the hook never builds one. *)
Definition add_free_items_to_invoice
    (doc : Invoice) (matching_items : list nat) (free_qty : float) (scheme_name : string)
    : Invoice :=
  set_items doc
    (foldl (λ (its : list LineItem) (i : nat),
              match its !! i with
              | Some it => (its ++ [free_row it free_qty scheme_name])%list
              | None => its
              end)
       (items doc) matching_items).

(** *** Main hook: called on submit of invoices *)

Record HookState : Type := {
  hs_doc : Invoice;
  hs_notices : list Notice
}.

Definition item_in_scope (item_codes : gset string) (it : LineItem) : bool :=
  match item_code it with
  | Some c => py_in c item_codes
  | None => false
  end.

(** Step 2 of the loop body: the lines of the invoice the scheme concerns. *)
Definition matching_items_of (item_codes : gset string) (doc : Invoice) : list nat :=
  if truthy_set item_codes
  then positions_from 0 (item_in_scope item_codes) (items doc)
  else seq 0 (length (items doc)).

Definition total_without_gst (doc : Invoice) (matching_items : list nat) : float :=
  flt (Some (py_sum ((λ it, flt (or_zero (base_net_amount it))) <$> deref (items doc) matching_items))).

Definition total_qty (doc : Invoice) (matching_items : list nat) : float :=
  flt (Some (py_sum ((λ it, flt (or_zero (qty it))) <$> deref (items doc) matching_items))).

(** [total_without_gst >= flt(scheme_doc.minimum_amount or 0)] *)
Definition amount_qualifies (scheme_doc : SchemeDoc) (total : float) : bool :=
  PrimFloat.leb (flt (or_zero (minimum_amount scheme_doc))) total.

(** [total_qty >= flt(scheme_doc.minimum_quantity or 0)] *)
Definition quantity_qualifies (scheme_doc : SchemeDoc) (total : float) : bool :=
  PrimFloat.leb (flt (or_zero (minimum_quantity scheme_doc))) total.

(** Step 3 of the loop body: the qualification rule and its effect. *)
Definition apply_validation_logic
    (scheme_doc : SchemeDoc) (matching_items : list nat) (st : HookState) : HookState :=
  let doc := hs_doc st in
  if bool_decide (type_of_promo_validation scheme_doc = Some "Based on Minimum Amount") then
    if amount_qualifies scheme_doc (total_without_gst doc matching_items)
    then
      let discount_pct := flt (or_zero (discount_percentage scheme_doc)) in
      if PrimFloat.ltb 0 discount_pct
      then {| hs_doc := apply_discount_to_invoice doc matching_items discount_pct (name scheme_doc);
              hs_notices := (hs_notices st ++ [DiscountApplied (name scheme_doc) discount_pct])%list |}
      else st
    else st
  else if bool_decide (type_of_promo_validation scheme_doc = Some "Based on Minimum Quantity") then
    if quantity_qualifies scheme_doc (total_qty doc matching_items)
    then
      let free_qty := flt (or_zero (free_quantity scheme_doc)) in
      if PrimFloat.ltb 0 free_qty
      then {| hs_doc := add_free_items_to_invoice doc matching_items free_qty (name scheme_doc);
              hs_notices := (hs_notices st ++ [FreeQuantityAdded (name scheme_doc) free_qty])%list |}
      else st
    else st
  else st.

(** The loop body for a scheme document that loaded. *)
Definition evaluate_scheme (cat : Catalog) (scheme_doc : SchemeDoc) (st : HookState) : HookState :=
  let doc := hs_doc st in
  let parties := _extract_party_values_from_scheme scheme_doc in
  if negb (_invoice_party_matches doc parties) then st
  else
    let item_codes := _extract_item_codes_from_scheme cat scheme_doc in
    let matching_items := matching_items_of item_codes doc in
    if bool_decide (matching_items = []) then st
    else apply_validation_logic scheme_doc matching_items st.

Definition hook_step (cat : Catalog) (store : list SchemeDoc) (st : HookState) (scheme_name : string)
    : HookState :=
  match get_doc store scheme_name with
  | None => st
  | Some scheme_doc => evaluate_scheme cat scheme_doc st
  end.

Definition apply_promotional_schemes
    (host : HostDb) (cat : Catalog) (store : list SchemeDoc) (today : date) (doc : Invoice)
    : HookState :=
  let st0 := {| hs_doc := doc; hs_notices := [] |} in
  if negb (String.eqb (doctype doc) "Sales Invoice" || String.eqb (doctype doc) "Purchase Invoice")
  then st0
  else
    let party_side :=
      if String.eqb (doctype doc) "Sales Invoice" then "Selling" else "Buying" in
    let active_scheme_names := get_active_schemes_for_party host store today party_side in
    if bool_decide (active_scheme_names = []) then st0
    else foldl (hook_step cat store) st0 active_scheme_names.

End Doctype.

(** ** Strings: [str.strip], [str.lower], [sorted] *)

(** Whitespace that [str.strip()] removes, for ASCII text. *)
Definition is_space (c : Ascii.ascii) : bool :=
  let n := Ascii.nat_of_ascii c in
  ((9 <=? n) && (n <=? 13) || (28 <=? n) && (n <=? 32))%nat.

Fixpoint lstrip (s : string) : string :=
  match s with
  | EmptyString => EmptyString
  | String c s' => if is_space c then lstrip s' else s
  end.

Fixpoint rstrip (s : string) : string :=
  match s with
  | EmptyString => EmptyString
  | String c s' =>
      match rstrip s' with
      | EmptyString => if is_space c then EmptyString else String c EmptyString
      | r => String c r
      end
  end.

Definition strip (s : string) : string := rstrip (lstrip s).

Definition lower_ascii (c : Ascii.ascii) : Ascii.ascii :=
  let n := Ascii.nat_of_ascii c in
  if ((65 <=? n) && (n <=? 90))%nat then Ascii.ascii_of_nat (n + 32) else c.

Fixpoint lower (s : string) : string :=
  match s with
  | EmptyString => EmptyString
  | String c s' => String (lower_ascii c) (lower s')
  end.

(** [haystack.find(term) != -1] *)
Definition contains (haystack term : string) : bool :=
  match String.index 0 term haystack with
  | Some _ => true
  | None => false
  end.

Definition str_le (a b : string) : Prop := String.leb a b = true.

#[global] Instance str_le_dec (a b : string) : Decision (str_le a b).
Proof. unfold str_le. apply _. Defined.

(** [sorted(s)] on a set of strings. *)
Definition sorted (s : gset string) : list string :=
  merge_sort str_le (elements s).

(** * The aggregation report ([custom_promotional_scheme_report.py]) *)
Module Report.

(** *** Helpers: extract values from scheme doc *)

Definition _extract_values_from_child_rows
    (rows : child_rows) (possible_keys : list string) : gset string :=
  match rows with
  | StrRows l => list_to_set (filter (λ v, truthy_str v = true) l)
  | DictRows l => list_to_set (omap (λ d, row_value d possible_keys) l)
  end.

(** [set([str(i) for i in xs if i])] *)
Definition normalize (xs : gset string) : gset string :=
  filter (λ x, truthy_str x = true) xs.

Definition _extract_item_codes_from_scheme (cat : Catalog) (scheme_doc : SchemeDoc) : gset string :=
  let item_code_vals :=
    _extract_values_from_child_rows (promotional_scheme_on_item_code scheme_doc)
      ["item_code"; "item"] in
  let item_group_vals :=
    _extract_values_from_child_rows (promotional_scheme_on_item_group scheme_doc)
      ["item_group"; "group"] in
  let item_codes :=
    if truthy_set item_group_vals
    then item_code_vals ∪ list_to_set (items_by_group cat item_group_vals)
    else item_code_vals in
  normalize item_codes.

(** [xs.update([str(c) for c in found if c])] *)
Definition update_with (xs : gset string) (found : list string) : gset string :=
  xs ∪ list_to_set (filter (λ c, truthy_str c = true) found).

Definition _extract_party_values_from_scheme (cat : Catalog) (scheme_doc : SchemeDoc) : PartiesDict :=
  let customers0 :=
    _extract_values_from_child_rows (customer scheme_doc) ["customer"; "value"] in
  let customer_groups0 :=
    _extract_values_from_child_rows (customer_group scheme_doc) ["customer_group"; "group"] in
  let territories0 :=
    _extract_values_from_child_rows (territory scheme_doc) ["territory"; "value"] in
  let suppliers0 :=
    _extract_values_from_child_rows (supplier scheme_doc) ["supplier"; "value"] in
  let supplier_groups0 :=
    _extract_values_from_child_rows (supplier_group scheme_doc) ["supplier_group"; "group"] in
  let customers1 :=
    if truthy_set customer_groups0
    then update_with customers0 (customers_by_group cat customer_groups0)
    else customers0 in
  let customers2 :=
    if truthy_set territories0
    then update_with customers1 (customers_by_territory cat territories0)
    else customers1 in
  let suppliers1 :=
    if truthy_set supplier_groups0
    then update_with suppliers0 (suppliers_by_group cat supplier_groups0)
    else suppliers0 in
  {| customers := normalize customers2;
     customer_groups := normalize customer_groups0;
     territories := normalize territories0;
     suppliers := normalize suppliers1;
     supplier_groups := normalize supplier_groups0 |}.

(** *** Historical totals *)

(** The grouped query [_get_totals_for_scheme] sends to the host database:
    the side decides the invoice tables and the party column, the other
    fields are the predicates of its [WHERE] clause. *)
Record TotalsQuery : Type := {
  q_side : string;
  q_from_date : option date;
  q_to_date : option date;
  q_parties : list string;
  q_items : list string
}.

(** One row of the query's result. *)
Record TotalsRecord : Type := {
  t_party_name : option string;
  t_item_code : option string;
  t_total_amount : option float;
  t_total_qty : option float
}.

(** [x or None] on a string. *)
Definition or_none (o : option string) : option string :=
  if truthy_ostr o then o else None.

Definition totals_key : Type := option string * option string.

Definition totals_entry (r : TotalsRecord) : float * float :=
  (flt (or_zero (t_total_amount r)), flt (or_zero (t_total_qty r))).

Definition build_totals_map (rows : list TotalsRecord) : gmap totals_key (float * float) :=
  foldl (λ (m : gmap totals_key (float * float)) r,
           <[(or_none (t_party_name r), or_none (t_item_code r)) := totals_entry r]> m)
    ∅ rows.

Definition totals_query
    (scheme_doc : SchemeDoc) (party_side : string)
    (parties : list (string * string)) (items : list (option string))
    (report_from report_to : option date) : TotalsQuery :=
  let from_date := match report_from with Some d => Some d | None => valid_from scheme_doc end in
  let to_date := match report_to with Some d => Some d | None => valid_to scheme_doc end in
  let concrete_parties :=
    filter (λ pname, truthy_str pname = true) (snd <$> parties) in
  let concrete_items :=
    omap (λ i, if truthy_ostr i then i else None) items in
  {| q_side := if String.eqb party_side "Selling" then "Selling" else "Buying";
     q_from_date := from_date;
     q_to_date := to_date;
     q_parties := concrete_parties;
     q_items := concrete_items |}.

Definition _get_totals_for_scheme
    (db_sql : TotalsQuery → list TotalsRecord)
    (scheme_doc : SchemeDoc) (party_side : string)
    (parties : list (string * string)) (items : list (option string))
    (report_from report_to : option date) : gmap totals_key (float * float) :=
  build_totals_map
    (db_sql (totals_query scheme_doc party_side parties items report_from report_to)).

(** *** Main data builder *)

Record Filters : Type := {
  f_scheme_name : option string;
  f_party_type : option string;
  f_party_name : option string;
  f_apply_on : option string;
  f_item_or_group : option string;
  f_from_date : option date;
  f_to_date : option date;
  f_min_invoice_amount : option float;
  f_max_invoice_amount : option float;
  f_min_invoice_qty : option float;
  f_max_invoice_qty : option float;
  f_discount_min : option float;
  f_discount_max : option float;
  f_show_only_eligible : bool
}.

Record ReportRow : Type := {
  r_scheme_name : string;
  r_party_type : string;
  r_party_name : string;
  r_apply_on : string;
  r_item_or_group : string;
  r_minimum_amount : float;
  r_minimum_quantity : float;
  r_discount_percentage : float;
  r_free_quantity : float;
  r_valid_from : option date;
  r_valid_to : option date;
  r_invoice_amount : float;
  r_invoice_qty : float;
  r_eligibility_status : string
}.

(** [x or fallback] on a string. *)
Definition or_str (o : option string) (fallback : string) : string :=
  match o with
  | Some x => if truthy_str x then x else fallback
  | None => fallback
  end.

(** The eligibility test of a report cell. *)
Definition cell_eligible (scheme_doc : SchemeDoc) (total_amount total_qty : float) : bool :=
  let validation_type := strip (or_str (type_of_promo_validation scheme_doc) "") in
  if String.eqb validation_type "Based on Minimum Amount" then
    let min_amount := flt (or_zero (minimum_amount scheme_doc)) in
    PrimFloat.ltb 0 min_amount && PrimFloat.leb min_amount total_amount
  else if String.eqb validation_type "Based on Minimum Quantity" then
    let min_qty := flt (or_zero (minimum_quantity scheme_doc)) in
    PrimFloat.ltb 0 min_qty && PrimFloat.leb min_qty total_qty
  else PrimFloat.ltb 0 total_amount || PrimFloat.ltb 0 total_qty.

(** The body of the two nested loops of [get_data]: the row of one cell. *)
Definition build_row
    (scheme_doc : SchemeDoc) (totals_map : gmap totals_key (float * float))
    (party_type party_name : string) (item_code : option string) : ReportRow :=
  let key : totals_key := (Some party_name, item_code) in
  let totals := default (0, 0) (totals_map !! key) in
  let total_amount := flt (or_zero (Some (fst totals))) in
  let total_qty := flt (or_zero (Some (snd totals))) in
  let eligible := cell_eligible scheme_doc total_amount total_qty in
  {| r_scheme_name := or_str (scheme_name scheme_doc) (name scheme_doc);
     r_party_type := party_type;
     r_party_name := if truthy_str party_name then party_name else "All";
     r_apply_on := or_str (apply_on scheme_doc) "-";
     r_item_or_group := or_str item_code "-";
     r_minimum_amount := flt (or_zero (minimum_amount scheme_doc));
     r_minimum_quantity := flt (or_zero (minimum_quantity scheme_doc));
     r_discount_percentage := flt (or_zero (discount_percentage scheme_doc));
     r_free_quantity := flt (or_zero (free_quantity scheme_doc));
     r_valid_from := valid_from scheme_doc;
     r_valid_to := valid_to scheme_doc;
     r_invoice_amount := total_amount;
     r_invoice_qty := total_qty;
     r_eligibility_status := if eligible then "Eligible" else "Not Eligible" |}.

(** The parties the scheme names on its side, and the side itself. *)
Definition declared_parties (scheme_doc : SchemeDoc) (parties_dict : PartiesDict)
    : string * list (string * string) :=
  let party_side := strip (or_str (select_the_party scheme_doc) "") in
  if String.eqb party_side "Selling" then
    (party_side, (λ c, ("Customer", c)) <$> sorted (customers parties_dict))
  else if String.eqb party_side "Buying" then
    (party_side, (λ sname, ("Supplier", sname)) <$> sorted (suppliers parties_dict))
  else ("Selling", []).

(** [set([p for (p, _) in totals_map.keys() if p])] *)
Definition all_parties (totals_map : gmap totals_key (float * float)) : gset string :=
  list_to_set
    (omap (λ k : totals_key, if truthy_ostr (fst k) then fst k else None)
       (elements (dom totals_map))).

(** The cells of a scheme: parties, then items. *)
Definition cells (parties : list (string * string)) (items : list (option string))
    : list (string * string * option string) :=
  p ← parties; (λ item_code, (p, item_code)) <$> items.

(** [sorted(item_codes) if item_codes else [None]] *)
Definition resolved_items (cat : Catalog) (scheme_doc : SchemeDoc) : list (option string) :=
  let item_codes := _extract_item_codes_from_scheme cat scheme_doc in
  if truthy_set item_codes then Some <$> sorted item_codes else [None].

(** The rows [get_data] builds for one scheme document. *)
Definition scheme_rows
    (ord : SetOrder) (cat : Catalog) (db_sql : TotalsQuery → list TotalsRecord)
    (filters : Filters) (scheme_doc : SchemeDoc) : list ReportRow :=
  let parties_dict := _extract_party_values_from_scheme cat scheme_doc in
  let '(party_side, parties) := declared_parties scheme_doc parties_dict in
  let items := resolved_items cat scheme_doc in
  let report_from := f_from_date filters in
  let report_to := f_to_date filters in
  let totals_map :=
    _get_totals_for_scheme db_sql scheme_doc party_side parties items report_from report_to in
  let parties' :=
    if bool_decide (parties = []) then
      if String.eqb party_side "Selling"
      then (λ p, ("Customer", p)) <$> iter_set ord (all_parties totals_map)
      else (λ p, ("Supplier", p)) <$> iter_set ord (all_parties totals_map)
    else parties in
  (λ c : string * string * option string,
     build_row scheme_doc totals_map (fst (fst c)) (snd (fst c)) (snd c))
    <$> cells parties' items.

(** *** Report filters *)

Definition opt_filter (o : option string) (test : string → bool) : bool :=
  match o with
  | Some v => if truthy_str v then test v else true
  | None => true
  end.

Definition keep_row (filters : Filters) (r : ReportRow) : bool :=
  opt_filter (f_scheme_name filters) (λ v, String.eqb (strip (r_scheme_name r)) v)
  && opt_filter (f_party_type filters) (λ v, String.eqb (strip (r_party_type r)) v)
  && opt_filter (f_party_name filters) (λ v, String.eqb (r_party_name r) v)
  && opt_filter (f_apply_on filters) (λ v, String.eqb (r_apply_on r) v)
  && opt_filter (f_item_or_group filters)
       (λ v, contains (lower (r_item_or_group r)) (lower (strip v)))
  && match f_from_date filters, r_valid_to r with
     | Some from_date, Some t => bool_decide (from_date ≤ t)%Z
     | _, _ => true
     end
  && match f_to_date filters, r_valid_from r with
     | Some to_date, Some f => bool_decide (f ≤ to_date)%Z
     | _, _ => true
     end
  && match f_min_invoice_amount filters with
     | Some b => PrimFloat.leb b (flt (or_zero (Some (r_invoice_amount r))))
     | None => true
     end
  && match f_max_invoice_amount filters with
     | Some b => PrimFloat.leb (flt (or_zero (Some (r_invoice_amount r)))) b
     | None => true
     end
  && match f_min_invoice_qty filters with
     | Some b => PrimFloat.leb b (flt (or_zero (Some (r_invoice_qty r))))
     | None => true
     end
  && match f_max_invoice_qty filters with
     | Some b => PrimFloat.leb (flt (or_zero (Some (r_invoice_qty r)))) b
     | None => true
     end
  && match f_discount_min filters with
     | Some b => PrimFloat.leb b (flt (or_zero (Some (r_discount_percentage r))))
     | None => true
     end
  && match f_discount_max filters with
     | Some b => PrimFloat.leb (flt (or_zero (Some (r_discount_percentage r)))) b
     | None => true
     end
  && (if f_show_only_eligible filters
      then String.eqb (lower (r_eligibility_status r)) "eligible"
      else true).

Definition _apply_report_filters (result_rows : list ReportRow) (filters : Filters)
    : list ReportRow :=
  filter (λ r, keep_row filters r = true) result_rows.

(** The scheme names the first query of [get_data] selects, in the order
    of the store ([ORDER BY creation DESC]). *)
Definition select_schemes (store : list SchemeDoc) (filters : Filters) : list string :=
  name <$>
    filter (λ s,
              (opt_filter (f_scheme_name filters) (λ v, String.eqb (name s) v)
               && opt_filter (f_apply_on filters) (λ v, bool_decide (apply_on s = Some v)))
              = true)
      store.

Definition get_data
    (ord : SetOrder) (cat : Catalog) (store : list SchemeDoc)
    (db_sql : TotalsQuery → list TotalsRecord) (filters : Filters) : list ReportRow :=
  let result_rows :=
    s ← select_schemes store filters;
    match Doctype.get_doc store s with
    | None => []
    | Some scheme_doc => scheme_rows ord cat db_sql filters scheme_doc
    end in
  _apply_report_filters result_rows filters.

(** *** Entry point *)

Record Column : Type := {
  col_label : string;
  col_fieldname : string;
  col_fieldtype : string;
  col_width : nat
}.

Definition get_columns : list Column :=
  [ {| col_label := "Scheme Name"; col_fieldname := "scheme_name";
       col_fieldtype := "Data"; col_width := 180 |};
    {| col_label := "Party Type"; col_fieldname := "party_type";
       col_fieldtype := "Data"; col_width := 120 |};
    {| col_label := "Party"; col_fieldname := "party_name";
       col_fieldtype := "Data"; col_width := 160 |};
    {| col_label := "Apply On"; col_fieldname := "apply_on";
       col_fieldtype := "Data"; col_width := 100 |};
    {| col_label := "Item / Item Group"; col_fieldname := "item_or_group";
       col_fieldtype := "Data"; col_width := 180 |};
    {| col_label := "Minimum Amount"; col_fieldname := "minimum_amount";
       col_fieldtype := "Currency"; col_width := 120 |};
    {| col_label := "Minimum Quantity"; col_fieldname := "minimum_quantity";
       col_fieldtype := "Float"; col_width := 120 |};
    {| col_label := "Discount %"; col_fieldname := "discount_percentage";
       col_fieldtype := "Percent"; col_width := 100 |};
    {| col_label := "Free Quantity"; col_fieldname := "free_quantity";
       col_fieldtype := "Float"; col_width := 100 |};
    {| col_label := "Valid From"; col_fieldname := "valid_from";
       col_fieldtype := "Date"; col_width := 110 |};
    {| col_label := "Valid To"; col_fieldname := "valid_to";
       col_fieldtype := "Date"; col_width := 110 |};
    {| col_label := "Total Invoice Amount"; col_fieldname := "invoice_amount";
       col_fieldtype := "Currency"; col_width := 130 |};
    {| col_label := "Total Quantity"; col_fieldname := "invoice_qty";
       col_fieldtype := "Float"; col_width := 110 |};
    {| col_label := "Eligibility Status"; col_fieldname := "eligibility_status";
       col_fieldtype := "Data"; col_width := 140 |} ].

(** The empty dictionary of filters: every [filters.get] gives [None]. *)
Definition empty_filters : Filters :=
  {| f_scheme_name := None; f_party_type := None; f_party_name := None;
     f_apply_on := None; f_item_or_group := None;
     f_from_date := None; f_to_date := None;
     f_min_invoice_amount := None; f_max_invoice_amount := None;
     f_min_invoice_qty := None; f_max_invoice_qty := None;
     f_discount_min := None; f_discount_max := None;
     f_show_only_eligible := false |}.

(** [execute(filters=None)]: [filters or {}], then columns and data. *)
Definition execute
    (ord : SetOrder) (cat : Catalog) (store : list SchemeDoc)
    (db_sql : TotalsQuery → list TotalsRecord)
    (filters : option Filters) : list Column * list ReportRow :=
  let filters := default empty_filters filters in
  let columns := get_columns in
  let data := get_data ord cat store db_sql filters in
  (columns, data).

(** The key under which [_get_totals_for_scheme] files a result row. *)
Definition record_key (r : TotalsRecord) : totals_key :=
  (or_none (t_party_name r), or_none (t_item_code r)).

End Report.

(** * Sample documents

    The scenarios of the specification, used to exercise the definitions. *)
Module Samples.

Definition no_rows : child_rows := DictRows [].

Definition link_rows (key : string) (values : list string) : child_rows :=
  DictRows ((λ v, [("idx", PInt 1); (key, PStr v)]) <$> values).

(** S1: selling side, no party scope, item ITEM-A, ten percent off from an
    amount of 1000. *)
Definition S1 : SchemeDoc :=
  {| name := "S1"; scheme_name := Some "S1"; select_the_party := Some "Selling";
     valid_from := Some 100%Z; valid_to := Some 200%Z;
     apply_on := Some "Item Code";
     type_of_promo_validation := Some "Based on Minimum Amount";
     minimum_amount := Some 1000; discount_percentage := Some 10;
     minimum_quantity := None; free_quantity := None;
     customer := no_rows; customer_group := no_rows; territory := no_rows;
     supplier := no_rows; supplier_group := no_rows;
     promotional_scheme_on_item_code := link_rows "item_code" ["ITEM-A"];
     promotional_scheme_on_item_group := no_rows |}.

(** S2: buying side, supplier SUP-1, any item, five free from a quantity of
    50. *)
Definition S2 : SchemeDoc :=
  {| name := "S2"; scheme_name := Some "S2"; select_the_party := Some "Buying";
     valid_from := Some 100%Z; valid_to := Some 200%Z;
     apply_on := Some "Item Code";
     type_of_promo_validation := Some "Based on Minimum Quantity";
     minimum_amount := None; discount_percentage := None;
     minimum_quantity := Some 50; free_quantity := Some 5;
     customer := no_rows; customer_group := no_rows; territory := no_rows;
     supplier := link_rows "supplier" ["SUP-1"]; supplier_group := no_rows;
     promotional_scheme_on_item_code := no_rows;
     promotional_scheme_on_item_group := no_rows |}.

(** S3: selling side, limited to the customer group Retail. *)
Definition S3 : SchemeDoc :=
  {| name := "S3"; scheme_name := Some "S3"; select_the_party := Some "Selling";
     valid_from := Some 100%Z; valid_to := Some 200%Z;
     apply_on := Some "Item Code";
     type_of_promo_validation := Some "Based on Minimum Amount";
     minimum_amount := Some 1000; discount_percentage := Some 10;
     minimum_quantity := None; free_quantity := None;
     customer := no_rows; customer_group := link_rows "customer_group" ["Retail"];
     territory := no_rows;
     supplier := no_rows; supplier_group := no_rows;
     promotional_scheme_on_item_code := no_rows;
     promotional_scheme_on_item_group := no_rows |}.

(** S5: selling side, limited to the customer C2 and to the customer group
    Retail. *)
Definition S5 : SchemeDoc :=
  {| name := "S5"; scheme_name := Some "S5"; select_the_party := Some "Selling";
     valid_from := Some 100%Z; valid_to := Some 200%Z;
     apply_on := Some "Item Code";
     type_of_promo_validation := Some "Based on Minimum Amount";
     minimum_amount := Some 1000; discount_percentage := Some 10;
     minimum_quantity := None; free_quantity := None;
     customer := link_rows "customer" ["C2"];
     customer_group := link_rows "customer_group" ["Retail"];
     territory := no_rows;
     supplier := no_rows; supplier_group := no_rows;
     promotional_scheme_on_item_code := no_rows;
     promotional_scheme_on_item_group := no_rows |}.

(** S6: as S1, with a minimum amount below zero. *)
Definition S6 : SchemeDoc :=
  {| name := "S6"; scheme_name := Some "S6"; select_the_party := Some "Selling";
     valid_from := Some 100%Z; valid_to := Some 200%Z;
     apply_on := Some "Item Code";
     type_of_promo_validation := Some "Based on Minimum Amount";
     minimum_amount := Some (-1); discount_percentage := Some 10;
     minimum_quantity := None; free_quantity := None;
     customer := no_rows; customer_group := no_rows; territory := no_rows;
     supplier := no_rows; supplier_group := no_rows;
     promotional_scheme_on_item_code := link_rows "item_code" ["ITEM-A"];
     promotional_scheme_on_item_group := no_rows |}.

(** S7: a scheme with every defect at once: dates out of order, an amount
    rule without its minimum amount, and item-group rows under the mode
    Item Code. *)
Definition S7 : SchemeDoc :=
  {| name := "S7"; scheme_name := Some "S7"; select_the_party := Some "Selling";
     valid_from := Some 200%Z; valid_to := Some 100%Z;
     apply_on := Some "Item Code";
     type_of_promo_validation := Some "Based on Minimum Amount";
     minimum_amount := None; discount_percentage := Some 10;
     minimum_quantity := None; free_quantity := None;
     customer := no_rows; customer_group := no_rows; territory := no_rows;
     supplier := no_rows; supplier_group := no_rows;
     promotional_scheme_on_item_code := no_rows;
     promotional_scheme_on_item_group := link_rows "item_group" ["Goods"] |}.

Definition line (code : string) (q r net : float) : LineItem :=
  {| item_code := Some code; item_name := Some code;
     qty := Some q; rate := Some r; amount := Some net;
     base_rate := Some r; base_amount := Some net; base_net_amount := Some net;
     li_discount_percentage := None; promotional_scheme_applied := None;
     is_free_item := false |}.

Definition sales_invoice (cust : string) (lines : list LineItem) : Invoice :=
  {| doctype := "Sales Invoice";
     inv_customer := Some cust; inv_customer_group := None; inv_territory := None;
     inv_supplier := None; inv_supplier_group := None;
     items := lines |}.

Definition purchase_invoice (supp : string) (lines : list LineItem) : Invoice :=
  {| doctype := "Purchase Invoice";
     inv_customer := None; inv_customer_group := None; inv_territory := None;
     inv_supplier := Some supp; inv_supplier_group := None;
     items := lines |}.

(** A sales invoice that carries the group and territory of its customer. *)
Definition sales_invoice_of (cust group terr : string) (lines : list LineItem) : Invoice :=
  {| doctype := "Sales Invoice";
     inv_customer := Some cust; inv_customer_group := Some group;
     inv_territory := Some terr;
     inv_supplier := None; inv_supplier_group := None;
     items := lines |}.

Definition no_filters : Report.Filters :=
  {| Report.f_scheme_name := None; Report.f_party_type := None;
     Report.f_party_name := None; Report.f_apply_on := None;
     Report.f_item_or_group := None;
     Report.f_from_date := None; Report.f_to_date := None;
     Report.f_min_invoice_amount := None; Report.f_max_invoice_amount := None;
     Report.f_min_invoice_qty := None; Report.f_max_invoice_qty := None;
     Report.f_discount_min := None; Report.f_discount_max := None;
     Report.f_show_only_eligible := false |}.

(** A host whose range filters drop a document with an unset date. *)
Definition host : HostDb :=
  {| unset_le := λ _, false; unset_ge := λ _, false |}.

(** Sets iterated in the order of [elements]. *)
Definition order : SetOrder :=
  {| iter_set := elements; iter_set_perm := λ s, reflexivity (elements s) |}.

(** A database with no submitted invoice. *)
Definition empty_db (q : Report.TotalsQuery) : list Report.TotalsRecord := [].

(** A database in which C1 and C2 bought ITEM-A. *)
Definition sales_db (q : Report.TotalsQuery) : list Report.TotalsRecord :=
  [ {| Report.t_party_name := Some "C1"; Report.t_item_code := Some "ITEM-A";
       Report.t_total_amount := Some 1500; Report.t_total_qty := Some 3 |};
    {| Report.t_party_name := Some "C2"; Report.t_item_code := Some "ITEM-A";
       Report.t_total_amount := Some 400; Report.t_total_qty := Some 1 |} ].

Definition catalog : Catalog :=
  {| cat_customers :=
       [ {| cust_name := "C1"; cust_group := Some "Retail"; cust_territory := Some "North" |};
         {| cust_name := "C2"; cust_group := Some "Wholesale"; cust_territory := Some "South" |} ];
     cat_suppliers :=
       [ {| supp_name := "SUP-1"; supp_group := Some "Local" |};
         {| supp_name := "SUP-2"; supp_group := Some "Import" |} ];
     cat_items :=
       [ {| it_name := "ITEM-A"; it_group := Some "Goods" |};
         {| it_name := "ITEM-B"; it_group := Some "Goods" |} ] |}.

End Samples.

(** * Vocabulary of the specification

    The conditions the specification names, written from its words; the
    properties below compare them with the code. *)
Module Spec.

(** A field that is present and non-zero. *)
Definition present_nonzero (o : option float) : Prop :=
  ∃ q, o = Some q ∧ ¬ F.eq q 0.

(** A child table with at least one row. *)
Definition has_rows (r : child_rows) : Prop :=
  match r with
  | StrRows l => l ≠ []
  | DictRows l => l ≠ []
  end.

(** Both validity dates are present and [valid_from > valid_to]. *)
Definition date_order_violated (s : SchemeDoc) : Prop :=
  ∃ f t, valid_from s = Some f ∧ valid_to s = Some t ∧ (f > t)%Z.

(** The item-scope mode conflicts with the declared rows. *)
Definition item_scope_conflict (s : SchemeDoc) : Prop :=
  (apply_on s = Some "Item Code" ∧ has_rows (promotional_scheme_on_item_group s))
  ∨ (apply_on s = Some "Item Group" ∧ has_rows (promotional_scheme_on_item_code s)).

(** The two fields of the chosen qualification rule are not both present
    and non-zero. *)
Definition rule_fields_missing (s : SchemeDoc) : Prop :=
  (type_of_promo_validation s = Some "Based on Minimum Amount"
   ∧ ¬ (present_nonzero (minimum_amount s) ∧ present_nonzero (discount_percentage s)))
  ∨ (type_of_promo_validation s = Some "Based on Minimum Quantity"
     ∧ ¬ (present_nonzero (minimum_quantity s) ∧ present_nonzero (free_quantity s))).

Definition invalid (s : SchemeDoc) : Prop :=
  date_order_violated s ∨ item_scope_conflict s ∨ rule_fields_missing s.

(** An invoice attribute passes a declared dimension: nothing is declared,
    or the attribute is set and is one of the declared values. *)
Definition dimension_ok (declared : gset string) (attr : option string) : Prop :=
  declared = ∅ ∨ ∃ a, attr = Some a ∧ a ≠ "" ∧ a ∈ declared.

End Spec.

(** * Vocabulary of the invariants

    Relations between an invoice before and after the hook, used to state
    what the hook preserves. *)
Module Inv.

(** Two lines that agree on everything a discount does not write: code,
    name, quantity, amounts, and the free-item marker. *)
Definition same_but_discount (a b : LineItem) : Prop :=
  item_code a = item_code b
  ∧ item_name a = item_name b
  ∧ qty a = qty b
  ∧ amount a = amount b
  ∧ base_rate a = base_rate b
  ∧ base_amount a = base_amount b
  ∧ base_net_amount a = base_net_amount b
  ∧ is_free_item a = is_free_item b.

(** Two invoices with the same type and parties. *)
Definition same_header (a b : Invoice) : Prop :=
  doctype a = doctype b
  ∧ inv_customer a = inv_customer b
  ∧ inv_customer_group a = inv_customer_group b
  ∧ inv_territory a = inv_territory b
  ∧ inv_supplier a = inv_supplier b
  ∧ inv_supplier_group a = inv_supplier_group b.

(** [b] holds every line of [a] at its position, changed at most by a
    discount, possibly followed by further lines. *)
Definition extends (a b : Invoice) : Prop :=
  same_header a b
  ∧ ∀ i it, items a !! i = Some it →
            ∃ it', items b !! i = Some it' ∧ same_but_discount it it'.

(** All the lines of an invoice, as references. *)
Definition all_lines (doc : Invoice) : list nat :=
  seq 0 (length (items doc)).

End Inv.

(** * Properties *)

(** ** Floating-point comparisons *)

Lemma SFcompare_Eq_sym (a b : spec_float) :
  SFcompare a b = Some Eq → SFcompare b a = Some Eq.
Proof.
  destruct a as [s1|s1| |s1 m1 e1], b as [s2|s2| |s2 m2 e2];
    try destruct s1; try destruct s2; simpl; try done.
  - destruct (e1 ?= e2)%Z eqn:He; try done.
    apply Z.compare_eq in He as ->.
    destruct (PosDef.Pos.compare_cont Eq m1 m2) eqn:Hm; try done.
    apply Pos.compare_eq in Hm as ->.
    intros _. rewrite Z.compare_refl.
    change (PosDef.Pos.compare_cont Eq m2 m2) with (m2 ?= m2)%positive.
    by rewrite Pos.compare_refl.
  - destruct (e1 ?= e2)%Z eqn:He; try done.
    apply Z.compare_eq in He as ->.
    destruct (PosDef.Pos.compare_cont Eq m1 m2) eqn:Hm; try done.
    apply Pos.compare_eq in Hm as ->.
    intros _. rewrite Z.compare_refl.
    change (PosDef.Pos.compare_cont Eq m2 m2) with (m2 ?= m2)%positive.
    by rewrite Pos.compare_refl.
Qed.

Lemma F_eq_le (a b : float) : F.eq a b → a ≤ b ∧ b ≤ a.
Proof.
  unfold F.eq, F.le. rewrite FloatAxioms.eqb_spec, !leb_spec.
  unfold SFeqb, SFleb. intros H.
  destruct (SFcompare (Prim2SF a) (Prim2SF b)) as [[]|] eqn:E; try done.
  by rewrite (SFcompare_Eq_sym _ _ E).
Qed.

Lemma eqb_zero (x : float) :
  PrimFloat.eqb x 0 = true ↔ ∃ s, Prim2SF x = S754_zero s.
Proof.
  rewrite FloatAxioms.eqb_spec. unfold SFeqb.
  change (Prim2SF 0) with (S754_zero false).
  destruct (Prim2SF x) as [s|s| |s m e]; simpl.
  - split; eauto.
  - destruct s; split; try done; intros [? [=]].
  - split; try done; intros [? [=]].
  - destruct s; split; try done; intros [? [=]].
Qed.

Lemma ltb_zero_leb_zero (m : float) :
  PrimFloat.ltb 0 m && PrimFloat.leb m 0 = false.
Proof.
  rewrite ltb_spec, leb_spec. unfold SFltb, SFleb.
  change (Prim2SF 0) with (S754_zero false).
  destruct (Prim2SF m) as [s|s| |s mm e]; try destruct s; reflexivity.
Qed.

(** [x or 0] does not change how a number compares. *)
Lemma or_zero_compare_l (x b : float) :
  SFcompare (Prim2SF (flt (or_zero (Some x)))) (Prim2SF b)
  = SFcompare (Prim2SF x) (Prim2SF b).
Proof.
  unfold or_zero, truthy_num.
  destruct (PrimFloat.eqb x 0) eqn:E; simpl; [|done].
  apply eqb_zero in E as [s ->].
  change (Prim2SF 0) with (S754_zero false). done.
Qed.

Lemma or_zero_compare_r (x b : float) :
  SFcompare (Prim2SF b) (Prim2SF (flt (or_zero (Some x))))
  = SFcompare (Prim2SF b) (Prim2SF x).
Proof.
  unfold or_zero, truthy_num.
  destruct (PrimFloat.eqb x 0) eqn:E; simpl; [|done].
  apply eqb_zero in E as [s ->].
  change (Prim2SF 0) with (S754_zero false).
  by destruct (Prim2SF b) as [?|?| |? ? ?].
Qed.

Lemma leb_or_zero_l (x b : float) :
  PrimFloat.leb (flt (or_zero (Some x))) b = PrimFloat.leb x b.
Proof. rewrite !leb_spec. unfold SFleb. by rewrite or_zero_compare_l. Qed.

Lemma leb_or_zero_r (x b : float) :
  PrimFloat.leb b (flt (or_zero (Some x))) = PrimFloat.leb b x.
Proof. rewrite !leb_spec. unfold SFleb. by rewrite or_zero_compare_r. Qed.

Lemma ltb_or_zero_r (x b : float) :
  PrimFloat.ltb b (flt (or_zero (Some x))) = PrimFloat.ltb b x.
Proof. rewrite !ltb_spec. unfold SFltb. by rewrite or_zero_compare_r. Qed.

Lemma or_zero_idem (o : option float) :
  or_zero (Some (flt (or_zero o))) = Some (flt (or_zero o)).
Proof.
  unfold or_zero. destruct (truthy_num o) eqn:E.
  - destruct o as [q|]; [|done]. simpl in *. by rewrite E.
  - reflexivity.
Qed.

(** ** Shared facts *)

Lemma truthy_set_empty : truthy_set ∅ = false.
Proof. reflexivity. Qed.

Lemma truthy_set_true (s : gset string) : truthy_set s = true ↔ s ≠ ∅.
Proof.
  unfold truthy_set. rewrite bool_decide_eq_true.
  split.
  - intros Hs ->. rewrite size_empty in Hs. lia.
  - intros Hne. destruct (size s) eqn:E; [|lia].
    apply size_empty_inv in E. apply leibniz_equiv in E. done.
Qed.

Lemma truthy_set_false (s : gset string) : truthy_set s = false ↔ s = ∅.
Proof.
  destruct (truthy_set s) eqn:E.
  - apply truthy_set_true in E. split; [done | intros ->; done].
  - split; [intros _ | done].
    destruct (decide (s = ∅)) as [|Hne]; [done|].
    apply truthy_set_true in Hne. congruence.
Qed.

Lemma dimension_fails_empty (attr : option string) :
  Doctype.dimension_fails ∅ attr = false.
Proof. reflexivity. Qed.

Lemma dimension_fails_false (declared : gset string) (attr : option string) :
  Doctype.dimension_fails declared attr = false ↔
  declared = ∅ ∨ ∃ a, attr = Some a ∧ a ≠ "" ∧ a ∈ declared.
Proof.
  unfold Doctype.dimension_fails.
  destruct (truthy_set declared) eqn:Hd; simpl.
  - apply truthy_set_true in Hd.
    destruct attr as [a|]; simpl.
    + unfold truthy_str, py_in.
      destruct (String.eqb_spec a "") as [->|Hne]; simpl.
      * split; [done|]. intros [?|(a' & [= <-] & ? & _)]; done.
      * rewrite negb_false_iff, bool_decide_eq_true.
        split; [intros; right; eauto|].
        intros [?|(a' & [= <-] & _ & ?)]; done.
    + split; [done|]. intros [?|(a' & ? & _)]; done.
  - apply truthy_set_false in Hd. split; [auto | done].
Qed.

(** ** Party match *)

(** C1: a scheme whose extracted party scope is empty on every dimension
    matches every invoice, whatever its party. *)
Theorem C1_empty_scope_is_wildcard (scheme_doc : SchemeDoc) (doc : Invoice) :
  let parties := Doctype._extract_party_values_from_scheme scheme_doc in
  customers parties = ∅ →
  customer_groups parties = ∅ →
  territories parties = ∅ →
  suppliers parties = ∅ →
  supplier_groups parties = ∅ →
  Doctype._invoice_party_matches doc parties = true.
Proof.
  intros parties Hc Hg Ht Hs Hsg.
  unfold Doctype._invoice_party_matches, parties_values.
  rewrite Hc, Hg, Ht, Hs, Hsg. reflexivity.
Qed.

(** C9: party limits declared only on the opposite side do not restrict an
    invoice: a Sales Invoice matches when customers, customer groups and
    territories are all empty, a Purchase Invoice when suppliers and
    supplier groups are. *)
Theorem C9_opposite_side_limits_do_not_restrict (doc : Invoice) (parties : PartiesDict) :
  (doctype doc = "Sales Invoice" →
   customers parties = ∅ → customer_groups parties = ∅ → territories parties = ∅ →
   Doctype._invoice_party_matches doc parties = true)
  ∧
  (doctype doc = "Purchase Invoice" →
   suppliers parties = ∅ → supplier_groups parties = ∅ →
   Doctype._invoice_party_matches doc parties = true).
Proof.
  split.
  - intros Hd Hc Hg Ht. unfold Doctype._invoice_party_matches.
    rewrite Hd, Hc, Hg, Ht, !dimension_fails_empty. simpl.
    by destruct (negb _).
  - intros Hd Hs Hsg. unfold Doctype._invoice_party_matches.
    rewrite Hd, Hs, Hsg, !dimension_fails_empty. simpl.
    by destruct (negb _).
Qed.

Lemma C1_witness :
  Doctype._invoice_party_matches
    (Samples.sales_invoice "C1" [Samples.line "ITEM-A" 1 1200 1200])
    (Doctype._extract_party_values_from_scheme Samples.S1) = true.
Proof. apply C1_empty_scope_is_wildcard; reflexivity. Defined.

Lemma C9_witness :
  Doctype._invoice_party_matches
    (Samples.sales_invoice "C1" [])
    (Doctype._extract_party_values_from_scheme Samples.S2) = true
  ∧
  Doctype._invoice_party_matches
    (Samples.purchase_invoice "SUP-2" [])
    (Doctype._extract_party_values_from_scheme Samples.S3) = true.
Proof.
  split.
  - apply (proj1 (C9_opposite_side_limits_do_not_restrict _ _)); reflexivity.
  - apply (proj2 (C9_opposite_side_limits_do_not_restrict _ _)); reflexivity.
Defined.

(** ** Save-time validation *)

Lemma truthy_num_spec (o : option float) :
  truthy_num o = true ↔ Spec.present_nonzero o.
Proof.
  unfold truthy_num, Spec.present_nonzero, F.eq. destruct o as [q|].
  - rewrite negb_true_iff, <- not_true_iff_false.
    split; [eauto | intros (q' & [= <-] & ?); done].
  - split; [done | intros (q' & ? & _); done].
Qed.

Lemma rows_truthy_spec (r : child_rows) :
  Doctype.rows_truthy r = true ↔ Spec.has_rows r.
Proof.
  destruct r as [l|l]; simpl;
    rewrite negb_true_iff, bool_decide_eq_false; done.
Qed.

Lemma validate_dates_raises (s : SchemeDoc) :
  raises (Doctype.validate_dates s) ↔ Spec.date_order_violated s.
Proof.
  unfold Doctype.validate_dates, Spec.date_order_violated, raises.
  destruct (valid_from s) as [f|], (valid_to s) as [t|];
    try (split; [intros [? [=]] | intros (? & ? & ? & ? & _); done]).
  case_bool_decide as Hlt.
  - split; [intros _; exists f, t; repeat split; lia | eauto].
  - split; [intros [? [=]] | intros (f' & t' & [= <-] & [= <-] & ?); lia].
Qed.

Lemma validate_condition_fields_raises (s : SchemeDoc) :
  raises (Doctype.validate_condition_fields s) ↔ Spec.rule_fields_missing s.
Proof.
  unfold Doctype.validate_condition_fields, Spec.rule_fields_missing, raises.
  rewrite <- !truthy_num_spec.
  case_bool_decide as Ha; [|case_bool_decide as Hq].
  - destruct (truthy_num (minimum_amount s)), (truthy_num (discount_percentage s)); simpl.
    + split; [intros [? [=]] | ].
      intros [[_ Hn]|[Hq _]]; [by destruct Hn | congruence].
    + split; [intros _; left; split; [done | by intros [_ ?]] | eauto].
    + split; [intros _; left; split; [done | by intros [? _]] | eauto].
    + split; [intros _; left; split; [done | by intros [? _]] | eauto].
  - destruct (truthy_num (minimum_quantity s)), (truthy_num (free_quantity s)); simpl.
    + split; [intros [? [=]] | ].
      intros [[? _]|[_ Hn]]; [congruence | by destruct Hn].
    + split; [intros _; right; split; [done | by intros [_ ?]] | eauto].
    + split; [intros _; right; split; [done | by intros [? _]] | eauto].
    + split; [intros _; right; split; [done | by intros [? _]] | eauto].
  - split; [intros [? [=]] | intros [[? _]|[? _]]; done].
Qed.

Lemma validate_apply_on_exclusivity_raises (s : SchemeDoc) :
  raises (Doctype.validate_apply_on_exclusivity s) ↔ Spec.item_scope_conflict s.
Proof.
  unfold Doctype.validate_apply_on_exclusivity, Spec.item_scope_conflict, raises.
  rewrite <- !rows_truthy_spec.
  case_bool_decide as Hc; simpl.
  - destruct (Doctype.rows_truthy (promotional_scheme_on_item_group s)) eqn:Hg; simpl.
    + split; [intros _; left; done | eauto].
    + rewrite Hc. rewrite bool_decide_eq_false_2 by done. simpl.
      split; [intros [? [=]] | intros [[_ ?]|[[=] _]]; done].
  - case_bool_decide as Hg; simpl.
    + destruct (Doctype.rows_truthy (promotional_scheme_on_item_code s)) eqn:Hr.
      * split; [intros _; right; done | eauto].
      * split; [intros [? [=]] | intros [[? _]|[_ ?]]; done].
    + split; [intros [? [=]] | intros [[? _]|[? _]]; done].
Qed.

Lemma seq_raises {B : Type} (r : result unit) (k : result B) :
  raises (r ;;; k) ↔ raises r ∨ (r = Ok tt ∧ raises k).
Proof.
  unfold raises. destruct r as [[]|msg]; simpl.
  - split; [intros [m Hm]; right; eauto | ].
    intros [[m [=]]|[_ ?]]; done.
  - split; [eauto | eauto].
Qed.

Lemma result_unit_cases (r : result unit) : r = Ok tt ∨ raises r.
Proof. destruct r as [[]|msg]; [left | right; exists msg]; done. Qed.

(** C8: saving a scheme is refused exactly when the dates are out of order,
    the item-scope mode conflicts with the declared rows, or the chosen
    rule's two fields are not both present and non-zero; a scheme with none
    of these defects validates. *)
Theorem C8_validate_raises_iff_invalid (s : SchemeDoc) :
  (raises (Doctype.validate s) ↔ Spec.invalid s)
  ∧ (¬ Spec.invalid s → Doctype.validate s = Ok tt).
Proof.
  assert (Hiff : raises (Doctype.validate s) ↔ Spec.invalid s).
  { unfold Doctype.validate, Spec.invalid.
    rewrite !seq_raises, validate_dates_raises,
      validate_condition_fields_raises, validate_apply_on_exclusivity_raises.
    split.
    - intros [?|[_ [?|[_ ?]]]]; auto.
    - intros [Hd|[Hc|Hr]]; [by left| |].
      + destruct (result_unit_cases (Doctype.validate_dates s)) as [Hok|Hraise];
          [|left; by apply validate_dates_raises].
        right. split; [done|].
        destruct (result_unit_cases (Doctype.validate_condition_fields s)) as [Hok'|Hraise'];
          [|left; by apply validate_condition_fields_raises].
        right. done.
      + destruct (result_unit_cases (Doctype.validate_dates s)) as [Hok|Hraise];
          [|left; by apply validate_dates_raises].
        right. split; [done|]. by left. }
  split; [done|].
  intros Hvalid. destruct (result_unit_cases (Doctype.validate s)) as [|Hraise]; [done|].
  apply Hiff in Hraise. done.
Qed.

Lemma C8_witness : Doctype.validate Samples.S1 = Ok tt.
Proof.
  apply (proj2 (C8_validate_raises_iff_invalid Samples.S1)).
  intros [Hd|[Hc|Hr]].
  - destruct Hd as (f & t & Hf & Ht & Hlt). simpl in Hf, Ht.
    injection Hf as <-. injection Ht as <-. lia.
  - destruct Hc as [[_ Hrows]|[Hmode _]]; [by apply Hrows | discriminate Hmode].
  - destruct Hr as [[_ Hn]|[Hrule _]]; [|discriminate Hrule].
    apply Hn. split; apply truthy_num_spec; reflexivity.
Defined.

(** ** The discount effect *)

Lemma foldl_alter_lookup (f : LineItem → LineItem) (refs : list nat)
    (its : list LineItem) (i : nat) :
  NoDup refs →
  foldl (λ l j, alter f j l) its refs !! i
  = if decide (i ∈ refs) then f <$> its !! i else its !! i.
Proof.
  intros Hnd. revert its.
  induction Hnd as [|j refs Hj Hnd IH]; intros its.
  - destruct (decide (i ∈ [])) as [Hin|_]; [by inversion Hin | done].
  - change (foldl (λ l j, alter f j l) (alter f j its) refs !! i
            = if decide (i ∈ j :: refs) then f <$> its !! i else its !! i).
    rewrite IH.
    destruct (decide (i = j)) as [->|Hne].
    + destruct (decide (j ∈ refs)) as [?|_]; [done|].
      destruct (decide (j ∈ j :: refs)) as [_|Hn]; [|by destruct Hn; left].
      by rewrite list_lookup_alter_eq.
    + rewrite list_lookup_alter_ne by done.
      destruct (decide (i ∈ refs)) as [Hin|Hnin],
               (decide (i ∈ j :: refs)) as [Hin'|Hnin']; try done.
      * destruct Hnin'. by right.
      * apply elem_of_cons in Hin' as [?|?]; done.
Qed.

Lemma apply_discount_lookup
    (doc : Invoice) (refs : list nat) (P : float) (scheme : string) (i : nat) :
  NoDup refs →
  i ∈ refs →
  items (Doctype.apply_discount_to_invoice doc refs P scheme) !! i
  = Doctype.discount_line P scheme <$> items doc !! i.
Proof.
  intros Hnd Hin. unfold Doctype.apply_discount_to_invoice, Doctype.set_items.
  cbn [items]. rewrite foldl_alter_lookup by done.
  destruct (decide (i ∈ refs)); done.
Qed.

Lemma apply_discount_lookup_other
    (doc : Invoice) (refs : list nat) (P : float) (scheme : string) (i : nat) :
  NoDup refs →
  i ∉ refs →
  items (Doctype.apply_discount_to_invoice doc refs P scheme) !! i = items doc !! i.
Proof.
  intros Hnd Hin. unfold Doctype.apply_discount_to_invoice, Doctype.set_items.
  cbn [items]. rewrite foldl_alter_lookup by done.
  destruct (decide (i ∈ refs)); done.
Qed.

Ltac float_neq :=
  let H := fresh in
  intros H; apply (f_equal (λ o : option float, Prim2SF (default 0 o))) in H;
  vm_compute in H; discriminate H.

(** C5, as the specification has it, fails: a line with rate 75 discounted
    at 68 percent is left with a rate that is neither 24, the value of
    [R * (1 - P/100)], nor the binary64 evaluation of that formula. *)
Lemma C5_counterexample :
  let doc := Samples.sales_invoice "C1" [Samples.line "ITEM-A" 1 75 75] in
  let once := Doctype.apply_discount_to_invoice doc [0%nat] 68 "S1" in
  ∃ it1, items once !! 0%nat = Some it1
         ∧ rate it1 ≠ Some 24
         ∧ rate it1 ≠ Some (75 * (1 - 68 / 100)).
Proof.
  eexists. split; [reflexivity|].
  split; cbn [rate Doctype.discount_line]; float_neq.
Qed.

(** C5, amended: one application of the discount to a matched line with
    rate [R] leaves the rate [R - R * (P/100)], computed in binary64, and
    records the percentage and the scheme on the line; a second application
    with the same [P] applies the same step to the new rate, and whenever
    that step moves the new rate the two results differ: the operation is
    not idempotent. *)
Theorem C5_discount_compounds_in_binary64
    (doc : Invoice) (matching_items : list nat) (P : float) (scheme : string)
    (i : nat) (it : LineItem) :
  NoDup matching_items →
  i ∈ matching_items →
  items doc !! i = Some it →
  let R := flt (rate it) in
  let R1 := R - R * (P / 100) in
  let R2 := R1 - R1 * (P / 100) in
  let once := Doctype.apply_discount_to_invoice doc matching_items P scheme in
  let twice := Doctype.apply_discount_to_invoice once matching_items P scheme in
  (∃ it1, items once !! i = Some it1
          ∧ rate it1 = Some R1
          ∧ li_discount_percentage it1 = Some P
          ∧ promotional_scheme_applied it1 = Some scheme)
  ∧ (∃ it2, items twice !! i = Some it2
            ∧ rate it2 = Some R2
            ∧ li_discount_percentage it2 = Some P
            ∧ promotional_scheme_applied it2 = Some scheme)
  ∧ (R2 ≠ R1 → twice ≠ once).
Proof.
  intros Hnd Hin Hit R R1 R2 once twice.
  assert (H1 : items once !! i = Some (Doctype.discount_line P scheme it)).
  { unfold once. rewrite apply_discount_lookup by done. by rewrite Hit. }
  assert (H2 : items twice !! i
               = Some (Doctype.discount_line P scheme (Doctype.discount_line P scheme it))).
  { unfold twice. rewrite apply_discount_lookup by done. by rewrite H1. }
  split; [|split].
  - eexists. split; [exact H1|]. done.
  - eexists. split; [exact H2|]. done.
  - intros Hne Heq. apply Hne.
    rewrite Heq, H1 in H2.
    apply (f_equal (λ o : option LineItem, flt (o ≫= rate))) in H2.
    symmetry. exact H2.
Qed.

Lemma C5_witness :
  let doc := Samples.sales_invoice "C1" [Samples.line "ITEM-A" 1 200 200] in
  let once := Doctype.apply_discount_to_invoice doc [0%nat] 10 "S1" in
  let twice := Doctype.apply_discount_to_invoice once [0%nat] 10 "S1" in
  (rate <$> items once) = [Some 180]
  ∧ (rate <$> items twice) = [Some 162]
  ∧ twice ≠ once.
Proof.
  intros doc once twice.
  assert (Hnd : NoDup [0%nat]) by (apply NoDup_singleton).
  assert (Hin : 0%nat ∈ [0%nat]) by (by left).
  assert (Hit : items doc !! 0%nat
                = Some (Samples.line "ITEM-A" 1 200 200)) by reflexivity.
  pose proof (C5_discount_compounds_in_binary64 doc [0%nat] 10 "S1" 0%nat _ Hnd Hin Hit)
    as (_ & _ & Hne).
  split; [reflexivity|]. split; [reflexivity|].
  apply Hne. cbn [Samples.line rate flt default].
  intros H. apply (f_equal Prim2SF) in H. vm_compute in H. discriminate H.
Defined.

(** ** The free-goods effect *)

Lemma deref_in_range (base : list LineItem) (refs : list nat) (k : nat) :
  (∀ i, i ∈ refs → (i < length base)%nat) →
  deref base refs !! k = refs !! k ≫= (λ i, base !! i).
Proof.
  unfold deref. revert k. induction refs as [|i refs IH]; intros k Hr; [done|].
  destruct (lookup_lt_is_Some_2 base i) as [it Hit]; [apply Hr; by left|].
  cbn [omap list_omap]. rewrite Hit.
  destruct k as [|k]; simpl; [done|].
  apply IH. intros j Hj. apply Hr. by right.
Qed.

Lemma deref_length (base : list LineItem) (refs : list nat) :
  (∀ i, i ∈ refs → (i < length base)%nat) →
  length (deref base refs) = length refs.
Proof.
  unfold deref. induction refs as [|i refs IH]; intros Hr; [done|].
  destruct (lookup_lt_is_Some_2 base i) as [it Hit]; [apply Hr; by left|].
  cbn [omap list_omap]. rewrite Hit. simpl. f_equal.
  apply IH. intros j Hj. apply Hr. by right.
Qed.

Lemma add_free_items_fold
    (free_qty : float) (scheme : string) (refs : list nat) (base acc : list LineItem) :
  (∀ i, i ∈ refs → (i < length base)%nat) →
  foldl (λ (its : list LineItem) (i : nat),
           match its !! i with
           | Some it => (its ++ [Doctype.free_row it free_qty scheme])%list
           | None => its
           end)
    (base ++ acc)%list refs
  = (base ++ acc ++ ((λ it, Doctype.free_row it free_qty scheme) <$> deref base refs))%list.
Proof.
  revert acc. induction refs as [|i refs IH]; intros acc Hr.
  - simpl. by rewrite app_nil_r.
  - destruct (lookup_lt_is_Some_2 base i) as [it Hit]; [apply Hr; by left|].
    cbn [foldl]. rewrite lookup_app_l by (apply Hr; by left). rewrite Hit.
    rewrite <- (assoc_L (++)). rewrite IH by (intros j Hj; apply Hr; by right).
    unfold deref. cbn [omap list_omap]. rewrite Hit.
    rewrite fmap_cons. by rewrite <- (assoc_L (++)).
Qed.

(** C7: the free-goods effect appends, after the existing lines and in the
    order of the matched lines, one zero-rate line per matched line with
    that line's code and name, the free quantity and the free-item marker;
    every line that was there before is unchanged. *)
Theorem C7_free_goods_appended
    (doc : Invoice) (matching_items : list nat) (free_qty : float) (scheme : string) :
  (∀ i, i ∈ matching_items → (i < length (items doc))%nat) →
  let doc' := Doctype.add_free_items_to_invoice doc matching_items free_qty scheme in
  items doc' = (items doc ++
    ((λ it, Doctype.free_row it free_qty scheme) <$> deref (items doc) matching_items))%list
  ∧ length (items doc') = (length (items doc) + length matching_items)%nat
  ∧ (∀ j, (j < length (items doc))%nat → items doc' !! j = items doc !! j)
  ∧ (∀ k i it,
       matching_items !! k = Some i →
       items doc !! i = Some it →
       ∃ row, items doc' !! (length (items doc) + k)%nat = Some row
              ∧ item_code row = item_code it
              ∧ item_name row = item_name it
              ∧ qty row = Some free_qty
              ∧ rate row = Some 0
              ∧ amount row = Some 0
              ∧ is_free_item row = true
              ∧ promotional_scheme_applied row = Some scheme).
Proof.
  intros Hr doc'.
  assert (Heq : items doc' = (items doc ++
            ((λ it, Doctype.free_row it free_qty scheme) <$> deref (items doc) matching_items))%list).
  { unfold doc', Doctype.add_free_items_to_invoice, Doctype.set_items. cbn [items].
    rewrite <- (app_nil_r (items doc)) at 1.
    by rewrite add_free_items_fold. }
  split; [exact Heq|]. rewrite Heq. split; [|split].
  - rewrite length_app, length_fmap, deref_length by done. done.
  - intros j Hj. by rewrite lookup_app_l.
  - intros k i it Hk Hit.
    exists (Doctype.free_row it free_qty scheme).
    split; [|done].
    rewrite lookup_app_r by lia.
    replace (length (items doc) + k - length (items doc))%nat with k by lia.
    rewrite list_lookup_fmap, deref_in_range by done.
    rewrite Hk. simpl. by rewrite Hit.
Qed.

Lemma C7_witness :
  let a := Samples.line "ITEM-A" 30 10 300 in
  let b := Samples.line "ITEM-B" 20 10 200 in
  items (Doctype.add_free_items_to_invoice
           (Samples.purchase_invoice "SUP-1" [a; b]) [0%nat; 1%nat] 5 "S2")
  = [a; b; Doctype.free_row a 5 "S2"; Doctype.free_row b 5 "S2"].
Proof.
  intros a b.
  refine (proj1 (C7_free_goods_appended
                   (Samples.purchase_invoice "SUP-1" [a; b]) [0%nat; 1%nat] 5 "S2" _)).
  intros i Hi. simpl.
  apply elem_of_cons in Hi as [->|Hi]; [lia|].
  apply elem_of_cons in Hi as [->|Hi]; [lia|].
  by apply elem_of_nil in Hi.
Defined.

(** ** The references the hook builds *)

Lemma positions_from_bounds (n : nat) (p : LineItem → bool) (l : list LineItem) (i : nat) :
  i ∈ positions_from n p l → (n ≤ i < n + length l)%nat.
Proof.
  revert n. induction l as [|it l IH]; intros n Hi; [by inversion Hi|].
  cbn [positions_from] in Hi. cbn [length].
  destruct (p it).
  - apply elem_of_cons in Hi as [->|Hi]; [lia|]. apply IH in Hi. lia.
  - apply IH in Hi. lia.
Qed.

Lemma positions_from_NoDup (n : nat) (p : LineItem → bool) (l : list LineItem) :
  NoDup (positions_from n p l).
Proof.
  revert n. induction l as [|it l IH]; intros n; cbn [positions_from]; [constructor|].
  destruct (p it); [|done].
  apply NoDup_cons. split; [|done].
  intros Hn%positions_from_bounds. lia.
Qed.

(** The lines the hook hands to an effect are lines of the invoice, each
    once: the side conditions of the two effect theorems hold for them. *)
Lemma matching_items_of_valid (item_codes : gset string) (doc : Invoice) :
  NoDup (Doctype.matching_items_of item_codes doc)
  ∧ ∀ i, i ∈ Doctype.matching_items_of item_codes doc → (i < length (items doc))%nat.
Proof.
  unfold Doctype.matching_items_of. destruct (truthy_set item_codes).
  - split; [apply positions_from_NoDup|].
    intros i Hi%positions_from_bounds. lia.
  - split; [apply NoDup_seq|].
    intros i Hi%elem_of_seq. lia.
Qed.

Lemma foldl_alter_length (f : LineItem → LineItem) (refs : list nat) (its : list LineItem) :
  length (foldl (λ l j, alter f j l) its refs) = length its.
Proof.
  revert its. induction refs as [|j refs IH]; intros its; [done|].
  cbn [foldl]. by rewrite IH, length_alter.
Qed.

(** ** The two effects on the lines of the invoice *)

Lemma discount_effect
    (doc : Invoice) (refs : list nat) (P : float) (scheme : string) :
  NoDup refs →
  let doc' := Doctype.apply_discount_to_invoice doc refs P scheme in
  length (items doc') = length (items doc)
  ∧ (∀ i it,
       i ∈ refs →
       items doc !! i = Some it →
       ∃ it', items doc' !! i = Some it'
              ∧ rate it' = Some (flt (rate it) - flt (rate it) * (P / 100))
              ∧ li_discount_percentage it' = Some P
              ∧ promotional_scheme_applied it' = Some scheme)
  ∧ (∀ i, i ∉ refs → items doc' !! i = items doc !! i).
Proof.
  intros Hnd doc'. split; [|split].
  - unfold doc', Doctype.apply_discount_to_invoice, Doctype.set_items. cbn [items].
    apply foldl_alter_length.
  - intros i it Hi Hit. unfold doc'. rewrite apply_discount_lookup by done. rewrite Hit.
    eexists. split; [reflexivity|]. done.
  - intros i Hi. by apply apply_discount_lookup_other.
Qed.

Lemma free_items_effect
    (doc : Invoice) (refs : list nat) (Q : float) (scheme : string) :
  (∀ i, i ∈ refs → (i < length (items doc))%nat) →
  let doc' := Doctype.add_free_items_to_invoice doc refs Q scheme in
  length (items doc') = (length (items doc) + length refs)%nat
  ∧ items doc'
    = (items doc ++
       ((λ it, {| item_code := item_code it;
                  item_name := item_name it;
                  qty := Some Q;
                  rate := Some 0;
                  amount := Some 0;
                  base_rate := Some 0;
                  base_amount := Some 0;
                  base_net_amount := None;
                  li_discount_percentage := None;
                  promotional_scheme_applied := Some scheme;
                  is_free_item := true |})
          <$> deref (items doc) refs))%list.
Proof.
  intros Hrange doc'.
  assert (Heq : items doc'
                = (items doc ++
                   ((λ it, Doctype.free_row it Q scheme) <$> deref (items doc) refs))%list).
  { unfold doc', Doctype.add_free_items_to_invoice, Doctype.set_items. cbn [items].
    rewrite <- (app_nil_r (items doc)) at 1.
    by rewrite add_free_items_fold. }
  split; [|exact Heq].
  rewrite Heq, length_app, length_fmap, deref_length by done. done.
Qed.

(** ** Qualification at submission *)

(** C6: the thresholds are inclusive.  On an invoice that passed the party
    and item gates, an amount rule whose matched net-amount sum equals the
    minimum amount applies the discount (when the percentage is positive):
    the notice is shown, every matched line is left with the reduced rate,
    the percentage and the scheme, and the other lines are as before.  A
    quantity rule whose matched quantity sum equals the minimum quantity
    adds the free goods (when the free quantity is positive): the notice is
    shown and one free line per matched line follows the lines of the
    invoice. *)
Theorem C6_threshold_is_inclusive (cat : Catalog) (scheme_doc : SchemeDoc) (st : Doctype.HookState) :
  let doc := Doctype.hs_doc st in
  let matching_items :=
    Doctype.matching_items_of (Doctype._extract_item_codes_from_scheme cat scheme_doc) doc in
  let st' := Doctype.evaluate_scheme cat scheme_doc st in
  Doctype._invoice_party_matches doc (Doctype._extract_party_values_from_scheme scheme_doc) = true →
  matching_items ≠ [] →
  (type_of_promo_validation scheme_doc = Some "Based on Minimum Amount" →
   F.eq (Doctype.total_without_gst doc matching_items)
        (flt (or_zero (minimum_amount scheme_doc))) →
   0 < flt (or_zero (discount_percentage scheme_doc)) →
   let P := flt (or_zero (discount_percentage scheme_doc)) in
   st' = {| Doctype.hs_doc :=
              Doctype.apply_discount_to_invoice doc matching_items P (name scheme_doc);
            Doctype.hs_notices :=
              (Doctype.hs_notices st ++ [DiscountApplied (name scheme_doc) P])%list |}
   ∧ Doctype.hs_notices st'
     = (Doctype.hs_notices st ++ [DiscountApplied (name scheme_doc) P])%list
   ∧ length (items (Doctype.hs_doc st')) = length (items doc)
   ∧ (∀ i it,
        i ∈ matching_items →
        items doc !! i = Some it →
        ∃ it', items (Doctype.hs_doc st') !! i = Some it'
               ∧ rate it' = Some (flt (rate it) - flt (rate it) * (P / 100))
               ∧ li_discount_percentage it' = Some P
               ∧ promotional_scheme_applied it' = Some (name scheme_doc))
   ∧ (∀ i, i ∉ matching_items → items (Doctype.hs_doc st') !! i = items doc !! i))
  ∧
  (type_of_promo_validation scheme_doc = Some "Based on Minimum Quantity" →
   F.eq (Doctype.total_qty doc matching_items)
        (flt (or_zero (minimum_quantity scheme_doc))) →
   0 < flt (or_zero (free_quantity scheme_doc)) →
   let Q := flt (or_zero (free_quantity scheme_doc)) in
   st' = {| Doctype.hs_doc :=
              Doctype.add_free_items_to_invoice doc matching_items Q (name scheme_doc);
            Doctype.hs_notices :=
              (Doctype.hs_notices st ++ [FreeQuantityAdded (name scheme_doc) Q])%list |}
   ∧ Doctype.hs_notices st'
     = (Doctype.hs_notices st ++ [FreeQuantityAdded (name scheme_doc) Q])%list
   ∧ length (items (Doctype.hs_doc st'))
     = (length (items doc) + length matching_items)%nat
   ∧ items (Doctype.hs_doc st')
     = (items doc ++
        ((λ it, {| item_code := item_code it;
                   item_name := item_name it;
                   qty := Some Q;
                   rate := Some 0;
                   amount := Some 0;
                   base_rate := Some 0;
                   base_amount := Some 0;
                   base_net_amount := None;
                   li_discount_percentage := None;
                   promotional_scheme_applied := Some (name scheme_doc);
                   is_free_item := true |})
           <$> deref (items doc) matching_items))%list).
Proof.
  intros doc matching_items st' Hparty Hitems.
  destruct (matching_items_of_valid
              (Doctype._extract_item_codes_from_scheme cat scheme_doc) doc) as [Hnd Hrange].
  fold matching_items in Hnd, Hrange.
  assert (Hst : st' = Doctype.apply_validation_logic scheme_doc matching_items st).
  { unfold st', Doctype.evaluate_scheme. fold doc. rewrite Hparty. cbn [negb].
    fold matching_items. by rewrite bool_decide_eq_false_2. }
  split.
  - intros Htype Hsum Hpct P.
    apply F_eq_le in Hsum as [_ Hle]. unfold F.le in Hle. unfold F.lt in Hpct.
    assert (Hst' : st' = {| Doctype.hs_doc :=
                              Doctype.apply_discount_to_invoice doc matching_items P (name scheme_doc);
                            Doctype.hs_notices :=
                              (Doctype.hs_notices st ++ [DiscountApplied (name scheme_doc) P])%list |}).
    { rewrite Hst. unfold Doctype.apply_validation_logic. fold doc. rewrite Htype.
      rewrite bool_decide_eq_true_2 by done.
      unfold Doctype.amount_qualifies. by rewrite Hle, Hpct. }
    split; [exact Hst'|]. rewrite Hst'. cbn [Doctype.hs_doc Doctype.hs_notices].
    split; [done|]. by apply discount_effect.
  - intros Htype Hsum Hqty Q.
    apply F_eq_le in Hsum as [_ Hle]. unfold F.le in Hle. unfold F.lt in Hqty.
    assert (Hst' : st' = {| Doctype.hs_doc :=
                              Doctype.add_free_items_to_invoice doc matching_items Q (name scheme_doc);
                            Doctype.hs_notices :=
                              (Doctype.hs_notices st ++ [FreeQuantityAdded (name scheme_doc) Q])%list |}).
    { rewrite Hst. unfold Doctype.apply_validation_logic. fold doc. rewrite Htype.
      rewrite bool_decide_eq_false_2 by discriminate.
      rewrite bool_decide_eq_true_2 by done.
      unfold Doctype.quantity_qualifies. by rewrite Hle, Hqty. }
    split; [exact Hst'|]. rewrite Hst'. cbn [Doctype.hs_doc Doctype.hs_notices].
    split; [done|]. by apply free_items_effect.
Qed.

Lemma C6_witness :
  let sale :=
    {| Doctype.hs_doc := Samples.sales_invoice "C1"
                   [Samples.line "ITEM-A" 1 1000 1000];
       Doctype.hs_notices := [] |} in
  let purchase :=
    {| Doctype.hs_doc := Samples.purchase_invoice "SUP-1"
                   [Samples.line "ITEM-B" 50 10 500];
       Doctype.hs_notices := [] |} in
  let sale' := Doctype.evaluate_scheme Samples.catalog Samples.S1 sale in
  let purchase' := Doctype.evaluate_scheme Samples.catalog Samples.S2 purchase in
  (Doctype.hs_notices sale' = [DiscountApplied "S1" 10]
   ∧ ∃ it', items (Doctype.hs_doc sale') !! 0%nat = Some it'
            ∧ rate it' = Some 900
            ∧ li_discount_percentage it' = Some 10
            ∧ promotional_scheme_applied it' = Some "S1")
  ∧ (Doctype.hs_notices purchase' = [FreeQuantityAdded "S2" 5]
     ∧ items (Doctype.hs_doc purchase')
       = [ Samples.line "ITEM-B" 50 10 500;
           {| item_code := Some "ITEM-B"; item_name := Some "ITEM-B";
              qty := Some 5; rate := Some 0; amount := Some 0;
              base_rate := Some 0; base_amount := Some 0;
              base_net_amount := None; li_discount_percentage := None;
              promotional_scheme_applied := Some "S2"; is_free_item := true |} ]).
Proof.
  intros sale purchase sale' purchase'. split.
  - assert (Hm : Doctype.matching_items_of
                   (Doctype._extract_item_codes_from_scheme Samples.catalog Samples.S1)
                   (Doctype.hs_doc sale) ≠ []) by (by vm_compute).
    destruct (proj1 (C6_threshold_is_inclusive Samples.catalog Samples.S1 sale eq_refl Hm)
                eq_refl eq_refl eq_refl) as (_ & Hn & _ & Hl & _).
    split; [exact Hn|].
    refine (Hl 0%nat (Samples.line "ITEM-A" 1 1000 1000) _ eq_refl).
    vm_compute. by left.
  - assert (Hm : Doctype.matching_items_of
                   (Doctype._extract_item_codes_from_scheme Samples.catalog Samples.S2)
                   (Doctype.hs_doc purchase) ≠ []) by (by vm_compute).
    destruct (proj2 (C6_threshold_is_inclusive Samples.catalog Samples.S2 purchase eq_refl Hm)
                eq_refl eq_refl eq_refl) as (_ & Hn & _ & Hi).
    split; [exact Hn | exact Hi].
Defined.

(** ** The store *)

Lemma get_doc_unique (store : list SchemeDoc) (s : SchemeDoc) :
  NoDup (name <$> store) →
  s ∈ store →
  Doctype.get_doc store (name s) = Some s.
Proof.
  unfold Doctype.get_doc.
  induction store as [|a store IH]; intros Hnd Hin; [by inversion Hin|].
  rewrite fmap_cons in Hnd. apply NoDup_cons in Hnd as [Ha Hnd].
  cbn [find].
  apply elem_of_cons in Hin as [->|Hin].
  - by rewrite String.eqb_refl.
  - destruct (String.eqb_spec (name a) (name s)) as [Heq|_]; [|by apply IH].
    destruct Ha. rewrite Heq. apply list_elem_of_fmap. eauto.
Qed.

Lemma foldl_ext_in {A B : Type} (f g : A → B → A) (l : list B) (a : A) :
  (∀ a' x, x ∈ l → f a' x = g a' x) →
  foldl f a l = foldl g a l.
Proof.
  revert a. induction l as [|x l IH]; intros a Hfg; [done|].
  cbn [foldl]. rewrite (Hfg a x) by (by left).
  apply IH. intros a' y Hy. apply Hfg. by right.
Qed.

(** ** Resolved party scope *)

Lemma truthy_str_spec (x : string) : truthy_str x = true ↔ x ≠ "".
Proof.
  unfold truthy_str. rewrite negb_true_iff.
  destruct (String.eqb_spec x ""); split; congruence.
Qed.

Lemma in_filter_empty (o : option string) : in_filter o ∅ = false.
Proof. destruct o; reflexivity. Qed.

Lemma customers_by_group_empty (cat : Catalog) : customers_by_group cat ∅ = [].
Proof.
  unfold customers_by_group.
  induction (cat_customers cat) as [|r l IH]; [done|].
  rewrite filter_cons_False; [done|]. by rewrite in_filter_empty.
Qed.

Lemma customers_by_territory_empty (cat : Catalog) : customers_by_territory cat ∅ = [].
Proof.
  unfold customers_by_territory.
  induction (cat_customers cat) as [|r l IH]; [done|].
  rewrite filter_cons_False; [done|]. by rewrite in_filter_empty.
Qed.

Lemma suppliers_by_group_empty (cat : Catalog) : suppliers_by_group cat ∅ = [].
Proof.
  unfold suppliers_by_group.
  induction (cat_suppliers cat) as [|r l IH]; [done|].
  rewrite filter_cons_False; [done|]. by rewrite in_filter_empty.
Qed.

Lemma elem_of_update_with (xs : gset string) (found : list string) (x : string) :
  x ∈ Report.update_with xs found ↔ x ∈ xs ∨ (x ≠ "" ∧ x ∈ found).
Proof.
  unfold Report.update_with.
  rewrite elem_of_union, elem_of_list_to_set, list_elem_of_filter, truthy_str_spec.
  done.
Qed.

Lemma elem_of_expansion
    (xs groups : gset string) (found : gset string → list string) (x : string) :
  found ∅ = [] →
  x ∈ (if truthy_set groups then Report.update_with xs (found groups) else xs)
  ↔ x ∈ xs ∨ (x ≠ "" ∧ x ∈ found groups).
Proof.
  intros Hempty. destruct (truthy_set groups) eqn:Hg.
  - apply elem_of_update_with.
  - apply truthy_set_false in Hg as ->. rewrite Hempty.
    split; [auto | intros [?|[_ Hin]]; [done | by inversion Hin]].
Qed.

Lemma elem_of_normalize (xs : gset string) (x : string) :
  x ∈ Report.normalize xs ↔ x ≠ "" ∧ x ∈ xs.
Proof. unfold Report.normalize. by rewrite elem_of_filter, truthy_str_spec. Qed.

Lemma sales_invoice_match (doc : Invoice) (parties : PartiesDict) :
  doctype doc = "Sales Invoice" →
  Doctype._invoice_party_matches doc parties = true
  ↔ Spec.dimension_ok (customers parties) (inv_customer doc)
    ∧ Spec.dimension_ok (customer_groups parties) (inv_customer_group doc)
    ∧ Spec.dimension_ok (territories parties) (inv_territory doc).
Proof.
  intros Hd. unfold Spec.dimension_ok. rewrite <- !dimension_fails_false.
  unfold Doctype._invoice_party_matches. rewrite Hd. cbn [String.eqb Ascii.eqb Bool.eqb andb].
  destruct (negb _) eqn:Hany.
  - apply negb_true_iff in Hany. unfold parties_values in Hany. cbn [existsb] in Hany.
    repeat (apply orb_false_elim in Hany as [?%bool_decide_eq_false Hany]).
    assert (Hempty : ∀ v : gset string, ¬ (0 < size v)%nat → v = ∅).
    { intros v Hv. apply leibniz_equiv, size_empty_inv. lia. }
    rewrite (Hempty (customers parties)), (Hempty (customer_groups parties)),
      (Hempty (territories parties)) by done.
    by rewrite !dimension_fails_empty.
  - destruct (Doctype.dimension_fails (customers parties) _),
             (Doctype.dimension_fails (customer_groups parties) _),
             (Doctype.dimension_fails (territories parties) _);
      simpl; split; (done || by intros (? & ? & ?)).
Qed.

Lemma purchase_invoice_match (doc : Invoice) (parties : PartiesDict) :
  doctype doc = "Purchase Invoice" →
  Doctype._invoice_party_matches doc parties = true
  ↔ Spec.dimension_ok (suppliers parties) (inv_supplier doc)
    ∧ Spec.dimension_ok (supplier_groups parties) (inv_supplier_group doc).
Proof.
  intros Hd. unfold Spec.dimension_ok. rewrite <- !dimension_fails_false.
  unfold Doctype._invoice_party_matches. rewrite Hd. cbn [String.eqb Ascii.eqb Bool.eqb andb].
  destruct (negb _) eqn:Hany.
  - apply negb_true_iff in Hany. unfold parties_values in Hany. cbn [existsb] in Hany.
    repeat (apply orb_false_elim in Hany as [?%bool_decide_eq_false Hany]).
    assert (Hempty : ∀ v : gset string, ¬ (0 < size v)%nat → v = ∅).
    { intros v Hv. apply leibniz_equiv, size_empty_inv. lia. }
    rewrite (Hempty (suppliers parties)), (Hempty (supplier_groups parties)) by done.
    by rewrite !dimension_fails_empty.
  - destruct (Doctype.dimension_fails (suppliers parties) _),
             (Doctype.dimension_fails (supplier_groups parties) _);
      simpl; split; (done || by intros (? & ?)).
Qed.

(** C2 does not hold as stated: the scope the matcher uses is not expanded.
    S5 names the customer C2 and the group Retail; C1 belongs to Retail, so
    the expanded union holds C1, but the matcher's customers are the
    declared ones only and the invoice of C1 is rejected. *)
Lemma C2_counterexample :
  ("C1" ∈ customers (Report._extract_party_values_from_scheme Samples.catalog Samples.S5))
  ∧ ("C1" ∉ customers (Doctype._extract_party_values_from_scheme Samples.S5))
  ∧ Doctype._invoice_party_matches
      (Samples.sales_invoice_of "C1" "Retail" "North" [])
      (Doctype._extract_party_values_from_scheme Samples.S5) = false.
Proof.
  split; [|split].
  - apply (bool_decide_unpack _). by vm_compute.
  - apply (bool_decide_unpack _). by vm_compute.
  - by vm_compute.
Qed.

(** C2, amended: the report's resolved scope holds the declared customers
    together with the customers of the declared groups and territories, and
    the declared suppliers together with the suppliers of the declared
    groups (empty names dropped); the matcher at submission does no such
    expansion and tests the invoice's own customer, customer group and
    territory (supplier and supplier group) each against the declared set of
    that dimension. *)
Theorem C2_report_expands_matcher_tests_each_dimension (cat : Catalog) (s : SchemeDoc) :
  let declared := Report._extract_values_from_child_rows in
  let expanded := Report._extract_party_values_from_scheme cat s in
  let matched := Doctype._extract_party_values_from_scheme s in
  (∀ x, x ∈ customers expanded ↔
        x ≠ "" ∧
        (x ∈ declared (customer s) ["customer"; "value"]
         ∨ x ∈ customers_by_group cat (declared (customer_group s) ["customer_group"; "group"])
         ∨ x ∈ customers_by_territory cat (declared (territory s) ["territory"; "value"])))
  ∧ (∀ x, x ∈ suppliers expanded ↔
          x ≠ "" ∧
          (x ∈ declared (supplier s) ["supplier"; "value"]
           ∨ x ∈ suppliers_by_group cat (declared (supplier_group s) ["supplier_group"; "group"])))
  ∧ (∀ doc, doctype doc = "Sales Invoice" →
            Doctype._invoice_party_matches doc matched = true
            ↔ Spec.dimension_ok (customers matched) (inv_customer doc)
              ∧ Spec.dimension_ok (customer_groups matched) (inv_customer_group doc)
              ∧ Spec.dimension_ok (territories matched) (inv_territory doc))
  ∧ (∀ doc, doctype doc = "Purchase Invoice" →
            Doctype._invoice_party_matches doc matched = true
            ↔ Spec.dimension_ok (suppliers matched) (inv_supplier doc)
              ∧ Spec.dimension_ok (supplier_groups matched) (inv_supplier_group doc)).
Proof.
  intros declared expanded matched.
  split; [|split; [|split]].
  - intros x. unfold expanded, Report._extract_party_values_from_scheme. cbn [customers].
    rewrite elem_of_normalize.
    rewrite (elem_of_expansion _ _ (customers_by_territory cat))
      by apply customers_by_territory_empty.
    rewrite (elem_of_expansion _ _ (customers_by_group cat))
      by apply customers_by_group_empty.
    unfold declared. tauto.
  - intros x. unfold expanded, Report._extract_party_values_from_scheme. cbn [suppliers].
    rewrite elem_of_normalize.
    rewrite (elem_of_expansion _ _ (suppliers_by_group cat))
      by apply suppliers_by_group_empty.
    unfold declared. tauto.
  - intros doc Hd. by apply sales_invoice_match.
  - intros doc Hd. by apply purchase_invoice_match.
Qed.

Lemma C2_witness :
  Doctype._invoice_party_matches
    (Samples.sales_invoice_of "C2" "Retail" "South" [])
    (Doctype._extract_party_values_from_scheme Samples.S5) = true.
Proof.
  refine (proj2 (proj1 (proj2 (proj2
            (C2_report_expands_matcher_tests_each_dimension Samples.catalog Samples.S5)))
            (Samples.sales_invoice_of "C2" "Retail" "South" []) _) _);
    [reflexivity|].
  split; [|split].
  - right. exists "C2". split; [reflexivity|]. split; [discriminate|].
    apply (bool_decide_unpack _). by vm_compute.
  - right. exists "Retail". split; [reflexivity|]. split; [discriminate|].
    apply (bool_decide_unpack _). by vm_compute.
  - left. reflexivity.
Defined.

(** ** Eligibility in the report *)

Lemma eligibility_status_spec
    (s : SchemeDoc) (tm : gmap Report.totals_key (float * float))
    (ptype pname : string) (item : option string) :
  let row := Report.build_row s tm ptype pname item in
  Report.r_eligibility_status row = "Eligible"
  ↔ Report.cell_eligible s (Report.r_invoice_amount row) (Report.r_invoice_qty row) = true.
Proof.
  cbn [Report.build_row Report.r_eligibility_status Report.r_invoice_amount Report.r_invoice_qty].
  destruct (Report.cell_eligible _ _ _); split; (done || discriminate).
Qed.

Lemma foldl_totals_lookup
    (rows : list Report.TotalsRecord) (m : gmap Report.totals_key (float * float))
    (k : Report.totals_key) :
  foldl (λ (m : gmap Report.totals_key (float * float)) r,
           <[(Report.or_none (Report.t_party_name r),
              Report.or_none (Report.t_item_code r)) := Report.totals_entry r]> m)
    m rows !! k
  = match last (filter (λ r, Report.record_key r = k) rows) with
    | Some r => Some (Report.totals_entry r)
    | None => m !! k
    end.
Proof.
  revert m. induction rows as [|r rows IH]; intros m; [done|].
  cbn [foldl]. rewrite IH.
  destruct (decide (Report.record_key r = k)) as [Hk|Hk].
  - rewrite filter_cons_True by done. rewrite last_cons.
    destruct (last (filter _ rows)); [done|].
    unfold Report.record_key in Hk. rewrite <- Hk. by rewrite lookup_insert_eq.
  - rewrite filter_cons_False by done.
    destruct (last (filter _ rows)); [done|].
    unfold Report.record_key in Hk. by rewrite lookup_insert_ne.
Qed.

(** The totals the map holds went through [x or 0.0] when they were
    filed; doing so again on reading them changes nothing. *)
Lemma build_totals_map_normal
    (rows : list Report.TotalsRecord) (k : Report.totals_key) :
  let t := default (0, 0) (Report.build_totals_map rows !! k) in
  (flt (or_zero (Some (fst t))), flt (or_zero (Some (snd t)))) = t.
Proof.
  cbv zeta. unfold Report.build_totals_map. rewrite foldl_totals_lookup.
  destruct (last _) as [r|]; [|reflexivity].
  cbn [default from_option id Report.totals_entry fst snd]. by rewrite !or_zero_idem.
Qed.

Lemma cell_eligible_amount (s : SchemeDoc) (total_amount total_qty : float) :
  type_of_promo_validation s = Some "Based on Minimum Amount" →
  Report.cell_eligible s total_amount total_qty = true
  ↔ 0 < flt (or_zero (minimum_amount s)) ∧ flt (or_zero (minimum_amount s)) ≤ total_amount.
Proof.
  intros Htype. unfold Report.cell_eligible. rewrite Htype.
  change (strip (Report.or_str (Some "Based on Minimum Amount") ""))
    with "Based on Minimum Amount".
  rewrite String.eqb_refl, andb_true_iff. done.
Qed.

Lemma cell_eligible_quantity (s : SchemeDoc) (total_amount total_qty : float) :
  type_of_promo_validation s = Some "Based on Minimum Quantity" →
  Report.cell_eligible s total_amount total_qty = true
  ↔ 0 < flt (or_zero (minimum_quantity s)) ∧ flt (or_zero (minimum_quantity s)) ≤ total_qty.
Proof.
  intros Htype. unfold Report.cell_eligible. rewrite Htype.
  change (strip (Report.or_str (Some "Based on Minimum Quantity") ""))
    with "Based on Minimum Quantity".
  change (String.eqb "Based on Minimum Quantity" "Based on Minimum Amount") with false.
  cbn iota.
  rewrite String.eqb_refl, andb_true_iff. done.
Qed.

(** C3 does not hold as stated: S6 passes validation with a minimum amount
    of -1; a cell with no sales has total 0, which reaches that minimum and
    passes the predicate used at submission, yet the report labels the cell
    as not eligible. *)
Lemma C3_counterexample :
  let row := Report.build_row Samples.S6 ∅ "Customer" "C1" (Some "ITEM-A") in
  Doctype.validate Samples.S6 = Ok tt
  ∧ Report.r_invoice_amount row = 0
  ∧ flt (or_zero (minimum_amount Samples.S6)) ≤ Report.r_invoice_amount row
  ∧ Doctype.amount_qualifies Samples.S6 (Report.r_invoice_amount row) = true
  ∧ Report.r_eligibility_status row = "Not Eligible".
Proof.
  cbn zeta. split; [reflexivity|]. split; [reflexivity|].
  split; [by vm_compute|]. split; reflexivity.
Qed.

(** C3, amended: the totals of a cell are those filed under its key, zero
    when there are none; the report labels a cell as eligible exactly when the
    scheme's threshold is positive and the historical total reaches it
    (amount against minimum amount for the amount rule, quantity against
    minimum quantity for the quantity rule); for a positive threshold this is
    the inclusive comparison the submission hook makes on matched-item
    sums. *)
Theorem C3_report_eligibility_needs_positive_threshold
    (s : SchemeDoc) (tm : gmap Report.totals_key (float * float))
    (ptype pname : string) (item : option string) :
  let row := Report.build_row s tm ptype pname item in
  let total_amount := Report.r_invoice_amount row in
  let total_qty := Report.r_invoice_qty row in
  let totals := default (0, 0) (tm !! (Some pname, item)) in
  (total_amount, total_qty)
  = (flt (or_zero (Some (fst totals))), flt (or_zero (Some (snd totals))))
  ∧ ((∃ rows, tm = Report.build_totals_map rows) → (total_amount, total_qty) = totals)
  ∧ (type_of_promo_validation s = Some "Based on Minimum Amount" →
     (Report.r_eligibility_status row = "Eligible"
      ↔ 0 < flt (or_zero (minimum_amount s))
        ∧ flt (or_zero (minimum_amount s)) ≤ total_amount)
     ∧ (0 < flt (or_zero (minimum_amount s)) →
        Report.r_eligibility_status row = "Eligible"
        ↔ Doctype.amount_qualifies s total_amount = true))
  ∧ (type_of_promo_validation s = Some "Based on Minimum Quantity" →
     (Report.r_eligibility_status row = "Eligible"
      ↔ 0 < flt (or_zero (minimum_quantity s))
        ∧ flt (or_zero (minimum_quantity s)) ≤ total_qty)
     ∧ (0 < flt (or_zero (minimum_quantity s)) →
        Report.r_eligibility_status row = "Eligible"
        ↔ Doctype.quantity_qualifies s total_qty = true)).
Proof.
  intros row total_amount total_qty totals.
  assert (Hread : (total_amount, total_qty)
                  = (flt (or_zero (Some (fst totals))), flt (or_zero (Some (snd totals))))).
  { reflexivity. }
  split; [exact Hread|]. split; [|split].
  - intros [rows ->]. rewrite Hread. apply build_totals_map_normal.
  - intros Htype. unfold row.
    rewrite eligibility_status_spec, (cell_eligible_amount _ _ _ Htype).
    split; [done|]. intros Hpos.
    unfold Doctype.amount_qualifies, F.le. tauto.
  - intros Htype. unfold row.
    rewrite eligibility_status_spec, (cell_eligible_quantity _ _ _ Htype).
    split; [done|]. intros Hpos.
    unfold Doctype.quantity_qualifies, F.le. tauto.
Qed.

Lemma C3_witness :
  let tm := Report.build_totals_map (Samples.sales_db
              {| Report.q_side := "Selling"; Report.q_from_date := None;
                 Report.q_to_date := None; Report.q_parties := []; Report.q_items := [] |}) in
  Report.r_eligibility_status
    (Report.build_row Samples.S1 tm "Customer" "C1" (Some "ITEM-A")) = "Eligible"
  ∧ Report.r_eligibility_status
      (Report.build_row Samples.S2 tm "Supplier" "SUP-1" None) ≠ "Eligible".
Proof.
  intros tm. split.
  - pose proof (C3_report_eligibility_needs_positive_threshold
                  Samples.S1 tm "Customer" "C1" (Some "ITEM-A")) as (_ & _ & Hamount & _).
    destruct (Hamount eq_refl) as [Hiff _].
    apply Hiff. split; by vm_compute.
  - pose proof (C3_report_eligibility_needs_positive_threshold
                  Samples.S2 tm "Supplier" "SUP-1" None) as (_ & _ & _ & Hquantity).
    destruct (Hquantity eq_refl) as [Hiff _].
    intros Hrow. apply Hiff in Hrow as [_ Hle].
    revert Hle. by vm_compute.
Defined.

(** ** Rows of the report *)

Lemma dom_foldl_totals
    (rows : list Report.TotalsRecord) (m : gmap Report.totals_key (float * float)) :
  dom (foldl (λ (m : gmap Report.totals_key (float * float)) r,
                <[(Report.or_none (Report.t_party_name r),
                   Report.or_none (Report.t_item_code r)) := Report.totals_entry r]> m)
         m rows)
  = dom m ∪ list_to_set
              ((λ r, (Report.or_none (Report.t_party_name r),
                      Report.or_none (Report.t_item_code r))) <$> rows).
Proof.
  revert m. induction rows as [|r rows IH]; intros m.
  - cbn [foldl fmap list_fmap]. by rewrite list_to_set_nil, (right_id_L ∅ (∪)).
  - cbn [foldl]. rewrite IH, dom_insert_L, fmap_cons, list_to_set_cons.
    by rewrite (comm_L (∪) _ (dom m)), (assoc_L (∪)).
Qed.

Lemma or_none_Some (o : option string) (p : string) :
  Report.or_none o = Some p ↔ o = Some p ∧ p ≠ "".
Proof.
  unfold Report.or_none. destruct o as [x|]; simpl.
  - destruct (truthy_str x) eqn:E.
    + apply truthy_str_spec in E. split; [intros [= ->]; done | by intros [? _]].
    + split; [done|]. intros [[= ->] Hne]. apply truthy_str_spec in Hne. congruence.
  - split; [done | by intros [? _]].
Qed.

Lemma elem_of_all_parties (rows : list Report.TotalsRecord) (p : string) :
  p ∈ Report.all_parties (Report.build_totals_map rows)
  ↔ p ≠ "" ∧ ∃ r, r ∈ rows ∧ Report.t_party_name r = Some p.
Proof.
  unfold Report.all_parties, Report.build_totals_map.
  rewrite elem_of_list_to_set, list_elem_of_omap.
  setoid_rewrite elem_of_elements.
  rewrite dom_foldl_totals, dom_empty_L, (left_id_L ∅ (∪)).
  setoid_rewrite elem_of_list_to_set.
  setoid_rewrite list_elem_of_fmap.
  split.
  - intros (k & (r & -> & Hr) & Hk). cbn [fst] in Hk.
    destruct (truthy_ostr _); [|done].
    apply or_none_Some in Hk as [Hp Hne]. eauto.
  - intros (Hne & r & Hr & Hp).
    eexists. split; [exists r; split; [reflexivity | done]|]. cbn [fst].
    assert (Hnorm : Report.or_none (Report.t_party_name r) = Some p)
      by (by apply or_none_Some).
    rewrite Hnorm. cbn [truthy_ostr].
    apply truthy_str_spec in Hne. by rewrite Hne.
Qed.

Lemma elem_of_iter_set (ord : SetOrder) (s : gset string) (x : string) :
  x ∈ iter_set ord s ↔ x ∈ s.
Proof. rewrite (iter_set_perm ord s). apply elem_of_elements. Qed.

Lemma NoDup_iter_set (ord : SetOrder) (s : gset string) : NoDup (iter_set ord s).
Proof. rewrite (iter_set_perm ord s). apply NoDup_elements. Qed.

Lemma iter_set_empty (ord : SetOrder) : iter_set ord ∅ = [].
Proof. apply Permutation_nil_r. by rewrite (iter_set_perm ord ∅), elements_empty. Qed.

Lemma resolved_items_NoDup (cat : Catalog) (s : SchemeDoc) :
  NoDup (Report.resolved_items cat s).
Proof.
  unfold Report.resolved_items. destruct (truthy_set _).
  - apply (NoDup_fmap_2 _). unfold sorted.
    rewrite merge_sort_Permutation. apply NoDup_elements.
  - apply NoDup_singleton.
Qed.

Lemma cells_NoDup (parties : list (string * string)) (items : list (option string)) :
  NoDup parties → NoDup items → NoDup (Report.cells parties items).
Proof.
  intros Hp Hi. unfold Report.cells. apply NoDup_bind; [| |done].
  - intros x1 x2 y _ _ (i1 & -> & _)%list_elem_of_fmap (i2 & [= -> _] & _)%list_elem_of_fmap.
    done.
  - intros x _. apply NoDup_fmap_2; [|done]. by intros i1 i2 [= ->].
Qed.

(** C4 does not hold as stated: S1 restricts no party, and over a database
    with no submitted invoice the totals hold no party; no row is emitted
    for the scheme, so there is no row labelled "All". *)
Lemma C4_counterexample :
  let declared :=
    Report.declared_parties Samples.S1
      (Report._extract_party_values_from_scheme Samples.catalog Samples.S1) in
  snd declared = []
  ∧ Report.scheme_rows Samples.order Samples.catalog Samples.empty_db Samples.no_filters Samples.S1 = []
  ∧ Report.get_data Samples.order Samples.catalog [Samples.S1] Samples.empty_db Samples.no_filters = []
  ∧ ¬ (∃ row,
         row ∈ Report.get_data Samples.order Samples.catalog [Samples.S1] Samples.empty_db Samples.no_filters
         ∧ Report.r_party_name row = "All").
Proof.
  cbn zeta.
  assert (Hrows : Report.scheme_rows Samples.order Samples.catalog Samples.empty_db
                    Samples.no_filters Samples.S1 = []) by (by vm_compute).
  assert (Hdata : Report.get_data Samples.order Samples.catalog [Samples.S1]
                    Samples.empty_db Samples.no_filters = []) by (by vm_compute).
  split; [by vm_compute|]. split; [done|]. split; [done|].
  rewrite Hdata. intros (row & Hin & _). by inversion Hin.
Qed.

(** C4, amended: for a scheme with no concrete party on its side, the rows
    built for it are the cells of the parties observed in the result of the
    historical-totals query, each observed party once with each resolved
    item, the parties in the order in which their set is iterated; when the
    result holds no party, no row is built for the scheme. *)
Theorem C4_unrestricted_scope_lists_observed_parties
    (ord : SetOrder) (cat : Catalog) (db_sql : Report.TotalsQuery → list Report.TotalsRecord)
    (filters : Report.Filters) (s : SchemeDoc) :
  let declared :=
    Report.declared_parties s (Report._extract_party_values_from_scheme cat s) in
  let party_side := fst declared in
  let party_type := if String.eqb party_side "Selling" then "Customer" else "Supplier" in
  let items := Report.resolved_items cat s in
  let result :=
    db_sql (Report.totals_query s party_side [] items
              (Report.f_from_date filters) (Report.f_to_date filters)) in
  let totals_map := Report.build_totals_map result in
  let observed := Report.all_parties totals_map in
  let observed_cells :=
    Report.cells ((λ p, (party_type, p)) <$> iter_set ord observed) items in
  let rows := Report.scheme_rows ord cat db_sql filters s in
  snd declared = [] →
  (∀ p, p ∈ observed ↔ p ≠ "" ∧ ∃ r, r ∈ result ∧ Report.t_party_name r = Some p)
  ∧ rows = (λ c : string * string * option string,
              Report.build_row s totals_map (fst (fst c)) (snd (fst c)) (snd c))
           <$> observed_cells
  ∧ NoDup observed_cells
  ∧ (∀ c, c ∈ observed_cells ↔
          fst (fst c) = party_type ∧ snd (fst c) ∈ observed ∧ snd c ∈ items)
  ∧ (∀ row, row ∈ rows →
            Report.r_party_type row = party_type ∧ Report.r_party_name row ∈ observed)
  ∧ (observed = ∅ → rows = []).
Proof.
  intros declared party_side party_type items result totals_map observed
    observed_cells rows Hnone.
  assert (Hobs : ∀ p, p ∈ observed ↔
                      p ≠ "" ∧ ∃ r, r ∈ result ∧ Report.t_party_name r = Some p).
  { intros p. apply elem_of_all_parties. }
  assert (Hrows : rows = (λ c : string * string * option string,
                            Report.build_row s totals_map (fst (fst c)) (snd (fst c)) (snd c))
                         <$> observed_cells).
  { unfold rows, Report.scheme_rows. fold declared. fold items.
    unfold observed_cells, observed, totals_map, result, party_type, party_side.
    destruct declared as [side parties]. cbn [fst snd] in *. subst parties.
    rewrite bool_decide_eq_true_2 by done.
    unfold Report._get_totals_for_scheme.
    by destruct (String.eqb side "Selling"). }
  assert (Hcells : ∀ c, c ∈ observed_cells ↔
                        fst (fst c) = party_type ∧ snd (fst c) ∈ observed ∧ snd c ∈ items).
  { intros [[pt p] i]. unfold observed_cells, Report.cells. cbn [fst snd].
    rewrite list_elem_of_bind. split.
    - intros ([pt' p'] & (i' & [= -> -> ->] & Hi)%list_elem_of_fmap
                       & (p'' & [= -> ->] & Hp)%list_elem_of_fmap).
      by apply elem_of_iter_set in Hp.
    - intros (-> & Hp & Hi). exists (party_type, p). split.
      + apply list_elem_of_fmap. eauto.
      + apply list_elem_of_fmap. exists p. by rewrite elem_of_iter_set. }
  split; [done|]. split; [done|]. split; [|split; [done|split]].
  - apply cells_NoDup; [|apply resolved_items_NoDup].
    apply NoDup_fmap_2; [by intros p1 p2 [= ->] | apply NoDup_iter_set].
  - intros row. rewrite Hrows.
    intros ([[pt p] i] & -> & Hc)%list_elem_of_fmap.
    apply Hcells in Hc as (Hpt & Hp & _). cbn [fst snd] in *.
    cbn [Report.build_row Report.r_party_type Report.r_party_name].
    split; [done|].
    pose proof (proj1 (Hobs p) Hp) as [Hne _].
    apply truthy_str_spec in Hne. by rewrite Hne.
  - intros Hempty. rewrite Hrows. unfold observed_cells.
    by rewrite Hempty, iter_set_empty.
Qed.

Lemma C4_witness :
  Report.r_party_name <$>
    Report.scheme_rows Samples.order Samples.catalog Samples.sales_db Samples.no_filters Samples.S1
  ≡ₚ ["C1"; "C2"].
Proof.
  pose proof (C4_unrestricted_scope_lists_observed_parties
                Samples.order Samples.catalog Samples.sales_db Samples.no_filters Samples.S1 eq_refl)
    as (_ & Hrows & _).
  rewrite Hrows. by vm_compute.
Defined.

(** ** The scenarios of the specification *)

(** Scenario A: S1 on an invoice with one line of ITEM-A worth 1200 takes
    ten percent off the rate of that line. *)
Example scenario_A :
  let doc := Samples.sales_invoice "C1" [Samples.line "ITEM-A" 1 1200 1200] in
  let st := Doctype.apply_promotional_schemes Samples.host Samples.catalog [Samples.S1; Samples.S2] 150%Z doc in
  Doctype.hs_notices st = [DiscountApplied "S1" 10]
  ∧ (items (Doctype.hs_doc st) !! 0%nat) ≫= rate = Some 1080.
Proof.
  cbn zeta. split; [reflexivity|].
  change (Some (1200 - 1200 * (10 / 100)) = Some 1080).
  f_equal.
Qed.

(** The sum the hook tests is the rounded one: net amounts of 2^53, 1 and
    1 add up, from left to right, to 2^53, which does not reach a minimum
    amount of 2^53 + 2. *)
Example scenario_rounded_sum :
  let doc := Samples.sales_invoice "C1"
               [Samples.line "ITEM-A" 1 1 9007199254740992;
                Samples.line "ITEM-A" 1 1 1;
                Samples.line "ITEM-A" 1 1 1] in
  Doctype.total_without_gst doc (Inv.all_lines doc) = 9007199254740992
  ∧ ¬ (9007199254740994 ≤ Doctype.total_without_gst doc (Inv.all_lines doc)).
Proof.
  cbn zeta. split; [reflexivity|]. unfold F.le. by vm_compute.
Qed.

(** Scenario B: S2 names the supplier SUP-1; a purchase from SUP-2 is left
    as it was. *)
Example scenario_B :
  let doc := Samples.purchase_invoice "SUP-2"
               [Samples.line "ITEM-B" 60 10 600] in
  Doctype.apply_promotional_schemes Samples.host Samples.catalog [Samples.S1; Samples.S2] 150%Z doc
  = {| Doctype.hs_doc := doc; Doctype.hs_notices := [] |}.
Proof. reflexivity. Qed.

(** * Further properties of the code *)

(** ** Values of child rows *)

Lemma dict_get_elem (d : row_dict) (k : string) (v : pyval) :
  dict_get d k = Some v → (k, v) ∈ d.
Proof.
  induction d as [|[k' v'] d IH]; [done|]. cbn [dict_get].
  destruct (String.eqb_spec k' k) as [->|_].
  - intros [= ->]. by left.
  - intros H. right. by apply IH.
Qed.

Lemma dict_get_unique (d : row_dict) (k : string) (v : pyval) :
  NoDup d.*1 → (k, v) ∈ d → dict_get d k = Some v.
Proof.
  induction d as [|[k' v'] d IH]; intros Hnd Hin; [by inversion Hin|].
  rewrite fmap_cons in Hnd. apply NoDup_cons in Hnd as [Hk Hnd]. cbn [dict_get].
  apply elem_of_cons in Hin as [[= -> ->]|Hin].
  - by rewrite String.eqb_refl.
  - destruct (String.eqb_spec k' k) as [->|_]; [|by apply IH].
    destruct Hk. apply list_elem_of_fmap. by exists (k, v).
Qed.

Lemma first_by_keys_None (d : row_dict) (possible_keys : list string) :
  first_by_keys d possible_keys = None
  ↔ ∀ k v, k ∈ possible_keys → dict_get d k = Some v → truthy v = false.
Proof.
  induction possible_keys as [|k ks IH]; cbn [first_by_keys].
  - split; [intros _ k v Hk; by inversion Hk | done].
  - destruct (dict_get d k) as [v|] eqn:Hget.
    + destruct (truthy v) eqn:Hv.
      * split; [done|]. intros H. specialize (H k v (list_elem_of_here _ _) Hget). congruence.
      * rewrite IH. split.
        -- intros H k' v' [->|Hk']%elem_of_cons Hget'; [congruence | by eapply H].
        -- intros H k' v' Hk'. apply H. by right.
    + rewrite IH. split.
      * intros H k' v' [->|Hk']%elem_of_cons Hget'; [congruence | by eapply H].
      * intros H k' v' Hk'. apply H. by right.
Qed.

Lemma first_by_keys_Some (d : row_dict) (possible_keys : list string) (x : string) :
  first_by_keys d possible_keys = Some x →
  ∃ k v, k ∈ possible_keys ∧ (k, v) ∈ d ∧ truthy v = true ∧ x = py_str v.
Proof.
  induction possible_keys as [|k ks IH]; cbn [first_by_keys]; [done|].
  destruct (dict_get d k) as [v|] eqn:Hget.
  - destruct (truthy v) eqn:Hv.
    + intros [= <-]. exists k, v. repeat split; [by left | by apply dict_get_elem | done].
    + intros (k' & v' & ? & ?)%IH. exists k', v'. split; [by right | done].
  - intros (k' & v' & ? & ?)%IH. exists k', v'. split; [by right | done].
Qed.

Lemma first_non_meta_None (d : row_dict) :
  first_non_meta d = None
  ↔ ∀ k v, (k, v) ∈ d → meta_key k = true ∨ truthy v = false.
Proof.
  induction d as [|[k v] d IH]; cbn [first_non_meta].
  - split; [intros _ k v Hk; by inversion Hk | done].
  - destruct (meta_key k) eqn:Hm; [|destruct (truthy v) eqn:Hv].
    + rewrite IH. split.
      * intros H k' v' [[= -> ->]|Hin]%elem_of_cons; [by left | by apply H].
      * intros H k' v' Hin. apply H. by right.
    + split; [done|]. intros H.
      destruct (H k v (list_elem_of_here _ _)); congruence.
    + rewrite IH. split.
      * intros H k' v' [[= -> ->]|Hin]%elem_of_cons; [by right | by apply H].
      * intros H k' v' Hin. apply H. by right.
Qed.

Lemma first_non_meta_Some (d : row_dict) (x : string) :
  first_non_meta d = Some x →
  ∃ k v, (k, v) ∈ d ∧ meta_key k = false ∧ truthy v = true ∧ x = py_str v.
Proof.
  induction d as [|[k v] d IH]; cbn [first_non_meta]; [done|].
  destruct (meta_key k) eqn:Hm; [|destruct (truthy v) eqn:Hv].
  - intros (k' & v' & ? & ?)%IH. exists k', v'. split; [by right | done].
  - intros [= <-]. exists k, v. split; [by left | done].
  - intros (k' & v' & ? & ?)%IH. exists k', v'. split; [by right | done].
Qed.

(** A dict-like child row contributes the text of one of its truthy values,
    found under a candidate key or else under a key that is not row
    metadata; it is skipped exactly when every truthy value it holds sits
    under a metadata key that is no candidate key. *)
Theorem row_value_skips_only_metadata (d : row_dict) (possible_keys : list string) :
  NoDup d.*1 →
  (row_value d possible_keys = None
   ↔ ∀ k v, (k, v) ∈ d → truthy v = true → (k ∉ possible_keys) ∧ meta_key k = true)
  ∧ (∀ x, row_value d possible_keys = Some x →
          ∃ k v, (k, v) ∈ d ∧ truthy v = true ∧ x = py_str v
                 ∧ (k ∈ possible_keys ∨ meta_key k = false)).
Proof.
  intros Hnd. unfold row_value. split.
  - destruct (first_by_keys d possible_keys) as [x|] eqn:Hkeys.
    + split; [done|]. intros H.
      apply first_by_keys_Some in Hkeys as (k & v & Hk & Hin & Hv & _).
      by destruct (H k v Hin Hv).
    + rewrite first_non_meta_None.
      pose proof (proj1 (first_by_keys_None d possible_keys) Hkeys) as Hnone.
      split.
      * intros H k v Hin Hv. split.
        -- intros Hk. pose proof (Hnone k v Hk (dict_get_unique d k v Hnd Hin)). congruence.
        -- destruct (H k v Hin); [done | congruence].
      * intros H k v Hin. destruct (truthy v) eqn:Hv; [|by right].
        left. by destruct (H k v Hin Hv).
  - intros x. destruct (first_by_keys d possible_keys) as [y|] eqn:Hkeys.
    + intros [= ->]. apply first_by_keys_Some in Hkeys as (k & v & ? & ? & ? & ?).
      exists k, v. auto.
    + intros (k & v & ? & ? & ? & ?)%first_non_meta_Some. exists k, v. auto.
Qed.

Lemma row_value_skips_only_metadata_witness :
  row_value [("idx", PInt 3); ("name", PStr "row-1"); ("customer", PStr "")] ["customer"; "value"]
  = None.
Proof.
  refine (proj2 (proj1 (row_value_skips_only_metadata _ ["customer"; "value"] _)) _).
  - apply (bool_decide_unpack _). by vm_compute.
  - intros k v Hin Hv.
    apply elem_of_cons in Hin as [[= -> ->]|Hin];
      [split; [apply (bool_decide_unpack _); by vm_compute | reflexivity]|].
    apply elem_of_cons in Hin as [[= -> ->]|Hin];
      [split; [apply (bool_decide_unpack _); by vm_compute | reflexivity]|].
    apply elem_of_cons in Hin as [[= -> ->]|Hin]; [discriminate Hv|].
    by apply elem_of_nil in Hin.
Defined.

(** The report's extractor returns what the hook's extractor returns, minus
    the empty string when the child table is a plain list of strings; on
    dict-like rows the two agree. *)
Theorem report_extractor_drops_empty_strings
    (rows : child_rows) (possible_keys : list string) (x : string) :
  x ∈ Report._extract_values_from_child_rows rows possible_keys
  ↔ x ∈ Doctype._extract_values_from_child_rows rows possible_keys
    ∧ (∀ l, rows = StrRows l → x ≠ "").
Proof.
  destruct rows as [l|l]; cbn [Report._extract_values_from_child_rows
                               Doctype._extract_values_from_child_rows].
  - rewrite !elem_of_list_to_set, list_elem_of_filter, truthy_str_spec.
    split; [intros [? ?]; split; [done | by intros l' _] | ].
    intros [? H]. split; [by apply (H l) | done].
  - split; [intros ?; split; [done | by intros l' [=]] | by intros [? _]].
Qed.

(** ** Item scope and matched lines *)

Lemma elem_of_items_by_group (cat : Catalog) (groups : gset string) (x : string) :
  x ∈ items_by_group cat groups
  ↔ ∃ r g, r ∈ cat_items cat ∧ it_name r = x ∧ it_group r = Some g ∧ g ∈ groups.
Proof.
  unfold items_by_group. rewrite list_elem_of_fmap. split.
  - intros (r & -> & [Hg Hr]%list_elem_of_filter).
    unfold in_filter in Hg. destruct (it_group r) as [g|] eqn:Hgr; [|done].
    apply bool_decide_eq_true in Hg. by exists r, g.
  - intros (r & g & Hr & <- & Hgr & Hg). exists r. split; [done|].
    apply list_elem_of_filter. split; [|done].
    unfold in_filter. rewrite Hgr. by apply bool_decide_eq_true.
Qed.

(** The item scope the hook resolves holds exactly the declared item codes
    and the names of the catalog items whose group is a declared group; an
    item of any other group is in it only if its code is declared. *)
Theorem item_scope_is_codes_and_group_members (cat : Catalog) (s : SchemeDoc) (x : string) :
  let codes :=
    Doctype._extract_values_from_child_rows (promotional_scheme_on_item_code s)
      ["item_code"; "item"] in
  let groups :=
    Doctype._extract_values_from_child_rows (promotional_scheme_on_item_group s)
      ["item_group"; "group"] in
  x ∈ Doctype._extract_item_codes_from_scheme cat s
  ↔ x ∈ codes
    ∨ ∃ r g, r ∈ cat_items cat ∧ it_name r = x ∧ it_group r = Some g ∧ g ∈ groups.
Proof.
  intros codes groups. unfold Doctype._extract_item_codes_from_scheme.
  fold codes. fold groups. rewrite <- elem_of_items_by_group.
  destruct (truthy_set groups) eqn:Hg.
  - by rewrite elem_of_union, elem_of_list_to_set.
  - apply truthy_set_false in Hg. rewrite Hg.
    split; [auto|]. intros [?|Hin]; [done|].
    apply elem_of_items_by_group in Hin as (r & g & _ & _ & _ & Hin).
    by apply not_elem_of_empty in Hin.
Qed.

Lemma deref_positions_from (pre l : list LineItem) (p : LineItem → bool) :
  deref (pre ++ l)%list (positions_from (length pre) p l) = filter (λ it, p it = true) l.
Proof.
  revert pre. induction l as [|it l IH]; intros pre; [done|].
  cbn [positions_from].
  assert (Hnext : deref (pre ++ it :: l)%list (positions_from (S (length pre)) p l)
                  = filter (λ it, p it = true) l).
  { replace (pre ++ it :: l)%list with ((pre ++ [it]) ++ l)%list
      by (by rewrite <- (assoc_L (++))).
    replace (S (length pre)) with (length (pre ++ [it])%list)
      by (rewrite length_app; simpl; lia).
    apply IH. }
  destruct (p it) eqn:Hp.
  - rewrite filter_cons_True by done.
    unfold deref in *. cbn [omap list_omap].
    rewrite list_lookup_middle by done. cbn. by rewrite Hnext.
  - rewrite filter_cons_False by congruence. done.
Qed.

Lemma deref_seq (pre l : list LineItem) :
  deref (pre ++ l)%list (seq (length pre) (length l)) = l.
Proof.
  revert pre. induction l as [|it l IH]; intros pre; [done|].
  cbn [length seq]. unfold deref in *. cbn [omap list_omap].
  rewrite list_lookup_middle by done. cbn. f_equal.
  replace (pre ++ it :: l)%list with ((pre ++ [it]) ++ l)%list
    by (by rewrite <- (assoc_L (++))).
  replace (S (length pre)) with (length (pre ++ [it])%list)
    by (rewrite length_app; simpl; lia).
  apply IH.
Qed.

(** The lines the hook matches are, in invoice order, all the lines when
    the item scope is empty, and otherwise exactly the lines whose item code
    is set and belongs to the scope. *)
Theorem matched_lines_are_the_lines_in_scope (item_codes : gset string) (doc : Invoice) :
  let matched := deref (items doc) (Doctype.matching_items_of item_codes doc) in
  (item_codes = ∅ → matched = items doc)
  ∧ (item_codes ≠ ∅ →
     matched = filter (λ it, Doctype.item_in_scope item_codes it = true) (items doc)
     ∧ ∀ it, it ∈ matched ↔ it ∈ items doc ∧ ∃ c, item_code it = Some c ∧ c ∈ item_codes).
Proof.
  intros matched. unfold matched, Doctype.matching_items_of. split.
  - intros ->. rewrite truthy_set_empty. apply (deref_seq []).
  - intros Hne. apply truthy_set_true in Hne. rewrite Hne.
    pose proof (deref_positions_from [] (items doc) (Doctype.item_in_scope item_codes)) as Heq.
    cbn [app length] in Heq. rewrite Heq. split; [done|].
    intros it. rewrite list_elem_of_filter. unfold Doctype.item_in_scope, py_in.
    split.
    + intros [Hin ?]. split; [done|].
      destruct (item_code it) as [c|]; [|done].
      apply bool_decide_eq_true in Hin. eauto.
    + intros [? (c & -> & Hc)]. split; [|done]. by apply bool_decide_eq_true.
Qed.

Lemma matched_lines_are_the_lines_in_scope_witness :
  let a := Samples.line "ITEM-A" 1 10 10 in
  let b := Samples.line "ITEM-B" 1 20 20 in
  deref [a; b; a] (Doctype.matching_items_of {["ITEM-A"]} (Samples.sales_invoice "C1" [a; b; a]))
  = [a; a].
Proof.
  intros a b.
  refine (proj1 (proj2 (matched_lines_are_the_lines_in_scope
                          {["ITEM-A"]} (Samples.sales_invoice "C1" [a; b; a])) _)).
  intros H. apply (f_equal size) in H. by vm_compute in H.
Defined.

(** ** When a scheme has an effect *)

Lemma notices_grow_ne (st : Doctype.HookState) (doc : Invoice) (n : Notice) :
  {| Doctype.hs_doc := doc; Doctype.hs_notices := (Doctype.hs_notices st ++ [n])%list |} ≠ st.
Proof.
  intros H. apply (f_equal (λ s, length (Doctype.hs_notices s))) in H.
  cbn in H. rewrite length_app in H. simpl in H. lia.
Qed.

(** A case in which the scheme does nothing: the state is unchanged and
    the descriptions of the effects have nothing to describe. *)
Ltac idle_by tac :=
  match goal with
  | |- (_ ↔ ?I) ∧ _ =>
      let Hi := fresh "Hi" in
      let Hn := fresh "Hn" in
      assert (Hi : I) by tac;
      split; [tauto | split; intros Hn; by destruct Hn]
  end.

(** A scheme leaves the invoice and the notices as they are exactly when the
    party does not match, no line is in scope, no rule is chosen, the
    matched sum does not reach the rule's threshold, or the rule's
    percentage or free quantity is not positive.  In every other case it
    applies its effect and adds one notice: under the amount rule every
    matched line is left with the reduced rate, the percentage and the
    scheme, and the other lines are as before; under the quantity rule one
    free line per matched line follows the lines of the invoice. *)
Theorem scheme_without_effect (cat : Catalog) (scheme_doc : SchemeDoc) (st : Doctype.HookState) :
  let doc := Doctype.hs_doc st in
  let matching_items :=
    Doctype.matching_items_of (Doctype._extract_item_codes_from_scheme cat scheme_doc) doc in
  let st' := Doctype.evaluate_scheme cat scheme_doc st in
  let P := flt (or_zero (discount_percentage scheme_doc)) in
  let Q := flt (or_zero (free_quantity scheme_doc)) in
  let idle :=
    Doctype._invoice_party_matches doc
      (Doctype._extract_party_values_from_scheme scheme_doc) = false
    ∨ matching_items = []
    ∨ (type_of_promo_validation scheme_doc = Some "Based on Minimum Amount"
       ∧ (¬ (flt (or_zero (minimum_amount scheme_doc))
              ≤ Doctype.total_without_gst doc matching_items)
          ∨ ¬ (0 < P)))
    ∨ (type_of_promo_validation scheme_doc = Some "Based on Minimum Quantity"
       ∧ (¬ (flt (or_zero (minimum_quantity scheme_doc))
              ≤ Doctype.total_qty doc matching_items)
          ∨ ¬ (0 < Q)))
    ∨ (type_of_promo_validation scheme_doc ≠ Some "Based on Minimum Amount"
       ∧ type_of_promo_validation scheme_doc ≠ Some "Based on Minimum Quantity") in
  (st' = st ↔ idle)
  ∧ (¬ idle →
     type_of_promo_validation scheme_doc = Some "Based on Minimum Amount" →
     Doctype.hs_notices st'
     = (Doctype.hs_notices st ++ [DiscountApplied (name scheme_doc) P])%list
     ∧ length (items (Doctype.hs_doc st')) = length (items doc)
     ∧ (∀ i it,
          i ∈ matching_items →
          items doc !! i = Some it →
          ∃ it', items (Doctype.hs_doc st') !! i = Some it'
                 ∧ rate it' = Some (flt (rate it) - flt (rate it) * (P / 100))
                 ∧ li_discount_percentage it' = Some P
                 ∧ promotional_scheme_applied it' = Some (name scheme_doc))
     ∧ (∀ i, i ∉ matching_items → items (Doctype.hs_doc st') !! i = items doc !! i))
  ∧ (¬ idle →
     type_of_promo_validation scheme_doc = Some "Based on Minimum Quantity" →
     Doctype.hs_notices st'
     = (Doctype.hs_notices st ++ [FreeQuantityAdded (name scheme_doc) Q])%list
     ∧ length (items (Doctype.hs_doc st'))
       = (length (items doc) + length matching_items)%nat
     ∧ items (Doctype.hs_doc st')
       = (items doc ++
          ((λ it, {| item_code := item_code it;
                     item_name := item_name it;
                     qty := Some Q;
                     rate := Some 0;
                     amount := Some 0;
                     base_rate := Some 0;
                     base_amount := Some 0;
                     base_net_amount := None;
                     li_discount_percentage := None;
                     promotional_scheme_applied := Some (name scheme_doc);
                     is_free_item := true |})
             <$> deref (items doc) matching_items))%list).
Proof.
  intros doc matching_items st' P Q idle.
  destruct (matching_items_of_valid
              (Doctype._extract_item_codes_from_scheme cat scheme_doc) doc) as [Hnd Hrange].
  fold matching_items in Hnd, Hrange.
  unfold st', Doctype.evaluate_scheme. fold doc.
  destruct (Doctype._invoice_party_matches doc _) eqn:Hparty; cbn [negb].
  2: { idle_by ltac:(by left). }
  fold matching_items.
  case_bool_decide as Hitems.
  { idle_by ltac:(right; by left). }
  unfold Doctype.apply_validation_logic, Doctype.amount_qualifies, Doctype.quantity_qualifies.
  fold doc. fold P Q.
  case_bool_decide as Ha; [|case_bool_decide as Hq].
  - destruct (PrimFloat.leb _ _) eqn:Hmin; [destruct (PrimFloat.ltb 0 P) eqn:Hpct|].
    + assert (Hact : ¬ idle).
      { unfold idle, F.le, F.lt.
        intros [?|[?|[[_ [H|H]]|[[Hq _]|[Hna _]]]]]; congruence. }
      split; [split; [intros H; by apply notices_grow_ne in H | tauto]|].
      split; [|intros _ Hq; congruence].
      intros _ _. cbn [Doctype.hs_doc Doctype.hs_notices].
      split; [done|]. by apply discount_effect.
    + idle_by ltac:(right; right; left; split; [done|]; right; unfold F.lt; congruence).
    + idle_by ltac:(right; right; left; split; [done|]; left; unfold F.le; congruence).
  - destruct (PrimFloat.leb _ _) eqn:Hmin; [destruct (PrimFloat.ltb 0 Q) eqn:Hqty|].
    + assert (Hact : ¬ idle).
      { unfold idle, F.le, F.lt.
        intros [?|[?|[[Ha' _]|[[_ [H|H]]|[_ Hnq]]]]]; congruence. }
      split; [split; [intros H; by apply notices_grow_ne in H | tauto]|].
      split; [intros _ Ha'; congruence|].
      intros _ _. cbn [Doctype.hs_doc Doctype.hs_notices].
      split; [done|]. by apply free_items_effect.
    + idle_by ltac:(right; right; right; left; split; [done|]; right; unfold F.lt; congruence).
    + idle_by ltac:(right; right; right; left; split; [done|]; left; unfold F.le; congruence).
  - idle_by ltac:(right; right; right; right; done).
Qed.

Lemma scheme_without_effect_witness :
  let purchase :=
    {| Doctype.hs_doc := Samples.purchase_invoice "SUP-1"
                   [Samples.line "ITEM-B" 60 10 600];
       Doctype.hs_notices := [] |} in
  let purchase' := Doctype.evaluate_scheme Samples.catalog Samples.S2 purchase in
  Doctype.hs_notices purchase' = [FreeQuantityAdded "S2" 5]
  ∧ length (items (Doctype.hs_doc purchase')) = 2%nat
  ∧ items (Doctype.hs_doc purchase')
    = [ Samples.line "ITEM-B" 60 10 600;
        {| item_code := Some "ITEM-B"; item_name := Some "ITEM-B";
           qty := Some 5; rate := Some 0; amount := Some 0;
           base_rate := Some 0; base_amount := Some 0;
           base_net_amount := None; li_discount_percentage := None;
           promotional_scheme_applied := Some "S2"; is_free_item := true |} ].
Proof.
  intros purchase purchase'.
  refine (proj2 (proj2 (scheme_without_effect Samples.catalog Samples.S2 purchase)) _ eq_refl).
  unfold F.le, F.lt.
  intros [H|[H|[[H _]|[[_ [H|H]]|[_ H]]]]].
  - vm_compute in H. discriminate H.
  - vm_compute in H. discriminate H.
  - vm_compute in H. discriminate H.
  - apply H. reflexivity.
  - apply H. reflexivity.
  - apply H. reflexivity.
Defined.

(** ** The hook uses the active schemes of the invoice's side only *)

Lemma active_filter_idem
    (host : HostDb) (side : string) (today : date) (store : list SchemeDoc) :
  Doctype.get_active_schemes_for_party host
    (filter (λ s, Doctype.active_filter host side today s = true) store) today side
  = Doctype.get_active_schemes_for_party host store today side.
Proof.
  unfold Doctype.get_active_schemes_for_party. f_equal.
  by rewrite list_filter_filter_l.
Qed.

(** With unique scheme names, the hook gives the same invoice and notices as
    on a store holding only the schemes of the invoice's side whose validity
    window contains today: a scheme of the other side, one that has expired
    and one that has not started yet change nothing. *)
Theorem hook_uses_only_active_schemes
    (host : HostDb) (cat : Catalog) (store : list SchemeDoc) (today : date) (doc : Invoice) :
  NoDup (name <$> store) →
  let side := if String.eqb (doctype doc) "Sales Invoice" then "Selling" else "Buying" in
  Doctype.apply_promotional_schemes host cat store today doc
  = Doctype.apply_promotional_schemes host cat
      (filter (λ s, Doctype.active_filter host side today s = true) store) today doc.
Proof.
  intros Hnd side. unfold Doctype.apply_promotional_schemes. fold side.
  rewrite active_filter_idem.
  destruct (negb _); [done|].
  case_bool_decide; [done|].
  apply foldl_ext_in. intros st n Hn.
  unfold Doctype.hook_step.
  unfold Doctype.get_active_schemes_for_party in Hn.
  apply list_elem_of_fmap in Hn as (s' & -> & Hs').
  pose proof Hs' as [Hact Hin']%list_elem_of_filter.
  rewrite (get_doc_unique store s' Hnd Hin').
  rewrite (get_doc_unique _ s'); [done| |done].
  eapply sublist_NoDup; [exact Hnd|].
  apply fmap_sublist, sublist_filter.
Qed.

Lemma hook_uses_only_active_schemes_witness :
  let doc := Samples.sales_invoice "C1" [Samples.line "ITEM-A" 1 1200 1200] in
  Doctype.apply_promotional_schemes Samples.host Samples.catalog [Samples.S1; Samples.S2] 250%Z doc
  = {| Doctype.hs_doc := doc; Doctype.hs_notices := [] |}.
Proof.
  intros doc.
  assert (Hnd : NoDup (name <$> [Samples.S1; Samples.S2])).
  { apply (bool_decide_unpack _). by vm_compute. }
  exact (hook_uses_only_active_schemes
           Samples.host Samples.catalog [Samples.S1; Samples.S2] 250%Z doc Hnd).
Defined.

(** ** What the hook preserves *)

Lemma same_but_discount_refl (it : LineItem) : Inv.same_but_discount it it.
Proof. by repeat split. Qed.

Lemma same_but_discount_trans (a b c : LineItem) :
  Inv.same_but_discount a b → Inv.same_but_discount b c → Inv.same_but_discount a c.
Proof.
  unfold Inv.same_but_discount. intros (?&?&?&?&?&?&?&?) (?&?&?&?&?&?&?&?).
  repeat split; congruence.
Qed.

Lemma discount_line_same (P : float) (scheme : string) (it : LineItem) :
  Inv.same_but_discount it (Doctype.discount_line P scheme it).
Proof. by repeat split. Qed.

Lemma extends_refl (doc : Invoice) : Inv.extends doc doc.
Proof.
  split; [by repeat split|]. intros i it Hit. exists it.
  split; [done | apply same_but_discount_refl].
Qed.

Lemma extends_trans (a b c : Invoice) :
  Inv.extends a b → Inv.extends b c → Inv.extends a c.
Proof.
  intros [Hh1 Hl1] [Hh2 Hl2]. split.
  - unfold Inv.same_header in *. destruct Hh1 as (?&?&?&?&?&?), Hh2 as (?&?&?&?&?&?).
    repeat split; congruence.
  - intros i it Hit. destruct (Hl1 i it Hit) as (it' & Hit' & Hs1).
    destruct (Hl2 i it' Hit') as (it'' & Hit'' & Hs2).
    exists it''. split; [done|]. by eapply same_but_discount_trans.
Qed.

Lemma foldl_alter_discount_same
    (P : float) (scheme : string) (refs : list nat) (its : list LineItem) (i : nat) (it : LineItem) :
  its !! i = Some it →
  ∃ it', foldl (λ l j, alter (Doctype.discount_line P scheme) j l) its refs !! i = Some it'
         ∧ Inv.same_but_discount it it'.
Proof.
  revert its it. induction refs as [|j refs IH]; intros its it Hit.
  - exists it. split; [done | apply same_but_discount_refl].
  - cbn [foldl]. destruct (decide (j = i)) as [->|Hne].
    + destruct (IH (alter (Doctype.discount_line P scheme) i its)
                  (Doctype.discount_line P scheme it)) as (it' & Hit' & Hsame).
      { by rewrite list_lookup_alter_eq, Hit. }
      exists it'. split; [done|].
      eapply same_but_discount_trans; [apply discount_line_same | done].
    + apply IH. by rewrite list_lookup_alter_ne.
Qed.

Lemma apply_discount_extends
    (doc : Invoice) (refs : list nat) (P : float) (scheme : string) :
  Inv.extends doc (Doctype.apply_discount_to_invoice doc refs P scheme).
Proof.
  split; [by repeat split|]. intros i it Hit.
  unfold Doctype.apply_discount_to_invoice, Doctype.set_items. cbn [items].
  by apply foldl_alter_discount_same.
Qed.

Lemma foldl_free_rows_keep
    (free_qty : float) (scheme : string) (refs : list nat) (its : list LineItem)
    (i : nat) (it : LineItem) :
  its !! i = Some it →
  foldl (λ (its : list LineItem) (i : nat),
           match its !! i with
           | Some it => (its ++ [Doctype.free_row it free_qty scheme])%list
           | None => its
           end) its refs !! i = Some it.
Proof.
  revert its. induction refs as [|j refs IH]; intros its Hit; [done|].
  cbn [foldl]. apply IH. destruct (its !! j); [|done].
  by apply lookup_app_l_Some.
Qed.

Lemma add_free_items_extends
    (doc : Invoice) (refs : list nat) (free_qty : float) (scheme : string) :
  Inv.extends doc (Doctype.add_free_items_to_invoice doc refs free_qty scheme).
Proof.
  split; [by repeat split|]. intros i it Hit. exists it.
  split; [|apply same_but_discount_refl].
  unfold Doctype.add_free_items_to_invoice, Doctype.set_items. cbn [items].
  by apply foldl_free_rows_keep.
Qed.

Lemma evaluate_scheme_extends (cat : Catalog) (scheme_doc : SchemeDoc) (st : Doctype.HookState) :
  Inv.extends (Doctype.hs_doc st) (Doctype.hs_doc (Doctype.evaluate_scheme cat scheme_doc st)).
Proof.
  unfold Doctype.evaluate_scheme, Doctype.apply_validation_logic.
  repeat (first [destruct (negb _) | case_bool_decide
                | destruct (PrimFloat.ltb _ _)
                | destruct (Doctype.amount_qualifies _ _)
                | destruct (Doctype.quantity_qualifies _ _)];
          try apply extends_refl);
    cbn [Doctype.hs_doc];
    first [apply apply_discount_extends | apply add_free_items_extends].
Qed.

(** Whatever the store holds, the hook keeps the invoice's type and parties
    and every line of the invoice at its position, with the same item,
    quantity, amounts and free-item marker: it removes, moves or replaces no
    line, and all it changes on an existing line is what a discount writes
    (rate, discount percentage, applied scheme). *)
Theorem hook_keeps_header_and_lines
    (host : HostDb) (cat : Catalog) (store : list SchemeDoc) (today : date) (doc : Invoice) :
  let doc' := Doctype.hs_doc (Doctype.apply_promotional_schemes host cat store today doc) in
  Inv.same_header doc doc'
  ∧ (length (items doc) ≤ length (items doc'))%nat
  ∧ ∀ i it, items doc !! i = Some it →
            ∃ it', items doc' !! i = Some it' ∧ Inv.same_but_discount it it'.
Proof.
  intros doc'.
  assert (Hext : Inv.extends doc doc').
  { unfold doc', Doctype.apply_promotional_schemes.
    destruct (negb _); [apply extends_refl|].
    case_bool_decide; [apply extends_refl|].
    generalize (Doctype.get_active_schemes_for_party host store today
                  (if String.eqb (doctype doc) "Sales Invoice" then "Selling" else "Buying")).
    intros names.
    assert (Hgen : ∀ st, Inv.extends doc (Doctype.hs_doc st) →
              Inv.extends doc (Doctype.hs_doc (foldl (Doctype.hook_step cat store) st names))).
    { induction names as [|n names IH]; intros st Hst; [done|].
      cbn [foldl]. apply IH. unfold Doctype.hook_step.
      destruct (Doctype.get_doc store n); [|done].
      eapply extends_trans; [exact Hst | apply evaluate_scheme_extends]. }
    apply Hgen. apply extends_refl. }
  destruct Hext as [Hh Hl]. split; [done|]. split; [|done].
  destruct (decide (length (items doc) ≤ length (items doc'))%nat) as [|Hlt]; [done|].
  destruct (lookup_lt_is_Some_2 (items doc) (length (items doc'))) as [it Hit]; [lia|].
  destruct (Hl _ _ Hit) as (it' & Hit' & _).
  apply lookup_lt_Some in Hit'. lia.
Qed.

(** ** The sums later schemes are tested on *)

Lemma foldl_alter_discount_Forall2
    (P : float) (scheme : string) (refs : list nat) (its : list LineItem) :
  Forall2 Inv.same_but_discount its
    (foldl (λ l j, alter (Doctype.discount_line P scheme) j l) its refs).
Proof.
  assert (Hgen : ∀ its0 its1, Forall2 Inv.same_but_discount its0 its1 →
            Forall2 Inv.same_but_discount its0
              (foldl (λ l j, alter (Doctype.discount_line P scheme) j l) its1 refs)).
  { induction refs as [|j refs IH]; intros its0 its1 H; [done|].
    cbn [foldl]. apply IH. apply Forall2_alter_r; [done|].
    intros a b _ _ Hab. eapply same_but_discount_trans; [exact Hab|].
    apply discount_line_same. }
  apply Hgen. apply Forall_Forall2_diag, Forall_forall. intros it _.
  apply same_but_discount_refl.
Qed.

Lemma positions_from_Forall2 (n : nat) (p : LineItem → bool) (l l' : list LineItem) :
  Forall2 (λ a b, p a = p b) l l' → positions_from n p l' = positions_from n p l.
Proof.
  intros H. revert n. induction H as [|a b l l' Hab _ IH]; intros n; [done|].
  cbn [positions_from]. rewrite Hab, !IH. done.
Qed.

Lemma deref_fmap_Forall2 {B : Type} (f : LineItem → B) (l l' : list LineItem) (refs : list nat) :
  Forall2 (λ a b, f a = f b) l l' → f <$> deref l' refs = f <$> deref l refs.
Proof.
  intros H. unfold deref. induction refs as [|i refs IH]; [done|].
  cbn [omap list_omap].
  destruct (l !! i) as [a|] eqn:Ha.
  - destruct (Forall2_lookup_l _ _ _ _ _ H Ha) as (b & Hb & Hab).
    rewrite Hb. cbn. by rewrite Hab, IH.
  - destruct (l' !! i) as [b|] eqn:Hb; [|done].
    destruct (Forall2_lookup_r _ _ _ _ _ H Hb) as (a & Ha' & _). congruence.
Qed.

(** A discount changes nothing a later scheme is tested on: after it, every
    item scope matches the same lines, and the net-amount sum and the
    quantity sum over any lines are what they were.  So a second amount
    scheme that qualified before the discount still qualifies after it. *)
Theorem discount_keeps_matches_and_sums
    (doc : Invoice) (matching_items : list nat) (P : float) (scheme : string) :
  let doc' := Doctype.apply_discount_to_invoice doc matching_items P scheme in
  length (items doc') = length (items doc)
  ∧ (∀ item_codes,
       Doctype.matching_items_of item_codes doc' = Doctype.matching_items_of item_codes doc)
  ∧ (∀ refs, Doctype.total_without_gst doc' refs = Doctype.total_without_gst doc refs)
  ∧ (∀ refs, Doctype.total_qty doc' refs = Doctype.total_qty doc refs).
Proof.
  intros doc'.
  pose proof (foldl_alter_discount_Forall2 P scheme matching_items (items doc)) as HF.
  change (foldl _ (items doc) matching_items) with (items doc') in HF.
  assert (Hlen : length (items doc') = length (items doc))
    by (symmetry; by eapply Forall2_length).
  split; [done|]. split; [|split].
  - intros item_codes. unfold Doctype.matching_items_of. rewrite Hlen.
    destruct (truthy_set item_codes); [|done].
    apply positions_from_Forall2.
    eapply Forall2_impl; [exact HF|].
    intros a b (Hc & _). unfold Doctype.item_in_scope. by rewrite Hc.
  - intros refs. unfold Doctype.total_without_gst. do 3 f_equal.
    apply (deref_fmap_Forall2 (λ it, flt (or_zero (base_net_amount it)))).
    eapply Forall2_impl; [exact HF|].
    intros a b (_ & _ & _ & _ & _ & _ & Hn & _). cbn. by rewrite Hn.
  - intros refs. unfold Doctype.total_qty. do 3 f_equal.
    apply (deref_fmap_Forall2 (λ it, flt (or_zero (qty it)))).
    eapply Forall2_impl; [exact HF|].
    intros a b (_ & _ & Hq & _). cbn. by rewrite Hq.
Qed.







(** ** Which error a save reports *)

Lemma validate_dates_ok (s : SchemeDoc) :
  ¬ Spec.date_order_violated s → Doctype.validate_dates s = Ok tt.
Proof.
  intros Hn. destruct (result_unit_cases (Doctype.validate_dates s)) as [|Hr]; [done|].
  by apply validate_dates_raises in Hr.
Qed.

Lemma validate_condition_fields_ok (s : SchemeDoc) :
  ¬ Spec.rule_fields_missing s → Doctype.validate_condition_fields s = Ok tt.
Proof.
  intros Hn. destruct (result_unit_cases (Doctype.validate_condition_fields s)) as [|Hr]; [done|].
  by apply validate_condition_fields_raises in Hr.
Qed.

Lemma not_both_present (a b : option float) :
  ¬ (Spec.present_nonzero a ∧ Spec.present_nonzero b) →
  negb (truthy_num a) || negb (truthy_num b) = true.
Proof.
  rewrite <- !truthy_num_spec. intros Hn.
  destruct (truthy_num a), (truthy_num b); try done. by destruct Hn.
Qed.

(** A refused save reports the first failing check, in the order dates,
    rule fields, item scope: a date error hides the other two, and a missing
    rule field hides an item-scope conflict. *)
Theorem validate_reports_first_failing_check (s : SchemeDoc) :
  (Spec.date_order_violated s →
   Doctype.validate s = Throw "Valid From date cannot be later than Valid To date.")
  ∧ (¬ Spec.date_order_violated s →
     type_of_promo_validation s = Some "Based on Minimum Amount" →
     ¬ (Spec.present_nonzero (minimum_amount s)
        ∧ Spec.present_nonzero (discount_percentage s)) →
     Doctype.validate s
     = Throw "Please specify both Minimum Amount and Discount Percentage.")
  ∧ (¬ Spec.date_order_violated s →
     type_of_promo_validation s = Some "Based on Minimum Quantity" →
     ¬ (Spec.present_nonzero (minimum_quantity s)
        ∧ Spec.present_nonzero (free_quantity s)) →
     Doctype.validate s
     = Throw "Please specify both Minimum Quantity and Free Quantity.")
  ∧ (¬ Spec.date_order_violated s →
     ¬ Spec.rule_fields_missing s →
     apply_on s = Some "Item Code" →
     Spec.has_rows (promotional_scheme_on_item_group s) →
     Doctype.validate s
     = Throw "You selected 'Item Code' but added rows in 'Promotional scheme on item group'. Please clear them.")
  ∧ (¬ Spec.date_order_violated s →
     ¬ Spec.rule_fields_missing s →
     apply_on s = Some "Item Group" →
     Spec.has_rows (promotional_scheme_on_item_code s) →
     Doctype.validate s
     = Throw "You selected 'Item Group' but added rows in 'Promotional scheme on item code'. Please clear them.").
Proof.
  unfold Doctype.validate. repeat split.
  - intros (f & t & Hf & Ht & Hlt).
    unfold Doctype.validate_dates. rewrite Hf, Ht.
    rewrite bool_decide_eq_true_2 by lia. done.
  - intros Hd Htype Hmiss. rewrite (validate_dates_ok s Hd). cbn [bind].
    unfold Doctype.validate_condition_fields. rewrite Htype.
    rewrite bool_decide_eq_true_2 by done.
    by rewrite (not_both_present _ _ Hmiss).
  - intros Hd Htype Hmiss. rewrite (validate_dates_ok s Hd). cbn [bind].
    unfold Doctype.validate_condition_fields. rewrite Htype.
    rewrite bool_decide_eq_false_2 by discriminate.
    rewrite bool_decide_eq_true_2 by done.
    by rewrite (not_both_present _ _ Hmiss).
  - intros Hd Hrule Hmode Hrows.
    rewrite (validate_dates_ok s Hd), (validate_condition_fields_ok s Hrule). cbn [bind].
    unfold Doctype.validate_apply_on_exclusivity. rewrite Hmode.
    rewrite bool_decide_eq_true_2 by done.
    apply rows_truthy_spec in Hrows. by rewrite Hrows.
  - intros Hd Hrule Hmode Hrows.
    rewrite (validate_dates_ok s Hd), (validate_condition_fields_ok s Hrule). cbn [bind].
    unfold Doctype.validate_apply_on_exclusivity. rewrite Hmode.
    rewrite bool_decide_eq_false_2 by discriminate.
    rewrite bool_decide_eq_true_2 by done.
    apply rows_truthy_spec in Hrows. by rewrite Hrows.
Qed.

Lemma validate_reports_first_failing_check_witness :
  Doctype.validate Samples.S7
  = Throw "Valid From date cannot be later than Valid To date.".
Proof.
  apply (proj1 (validate_reports_first_failing_check Samples.S7)).
  exists 200%Z, 100%Z. repeat split; lia.
Defined.

(** ** The report's filters *)

Lemma keep_row_empty_filters (r : Report.ReportRow) :
  Report.keep_row Report.empty_filters r = true.
Proof. reflexivity. Qed.

(** The final filter pass only drops rows: what it returns is a sublist of
    what it was given, in the same order; filtering again with the same
    filters changes nothing; and with no filter set every row is kept. *)
Theorem report_filters_only_drop_rows
    (result_rows : list Report.ReportRow) (filters : Report.Filters) :
  Report._apply_report_filters result_rows filters `sublist_of` result_rows
  ∧ Report._apply_report_filters (Report._apply_report_filters result_rows filters) filters
    = Report._apply_report_filters result_rows filters
  ∧ Report._apply_report_filters result_rows Report.empty_filters = result_rows.
Proof.
  unfold Report._apply_report_filters. split; [apply sublist_filter|]. split.
  - by rewrite list_filter_filter_l.
  - induction result_rows as [|r l IH]; [done|].
    rewrite filter_cons_True by apply keep_row_empty_filters. by rewrite IH.
Qed.

Lemma scheme_rows_are_built
    (ord : SetOrder) (cat : Catalog) (db_sql : Report.TotalsQuery → list Report.TotalsRecord)
    (filters : Report.Filters) (s : SchemeDoc) (row : Report.ReportRow) :
  row ∈ Report.scheme_rows ord cat db_sql filters s →
  ∃ tm pt p i, row = Report.build_row s tm pt p i.
Proof.
  unfold Report.scheme_rows.
  destruct (Report.declared_parties _ _) as [side parties].
  intros (c & -> & _)%list_elem_of_fmap. eauto.
Qed.

Lemma get_data_rows
    (ord : SetOrder) (cat : Catalog) (store : list SchemeDoc)
    (db_sql : Report.TotalsQuery → list Report.TotalsRecord)
    (filters : Report.Filters) (row : Report.ReportRow) :
  row ∈ Report.get_data ord cat store db_sql filters →
  Report.keep_row filters row = true
  ∧ ∃ s tm pt p i, s ∈ store ∧ row = Report.build_row s tm pt p i.
Proof.
  unfold Report.get_data, Report._apply_report_filters.
  intros [Hkeep Hin]%list_elem_of_filter. split; [done|].
  apply list_elem_of_bind in Hin as (n & Hrow & _).
  destruct (Doctype.get_doc store n) as [s|] eqn:Hdoc; [|by inversion Hrow].
  apply scheme_rows_are_built in Hrow as (tm & pt & p & i & ->).
  exists s, tm, pt, p, i. split; [|done].
  unfold Doctype.get_doc in Hdoc. apply find_some in Hdoc as [Hin _].
  by apply list_elem_of_In.
Qed.

Lemma build_row_status (s : SchemeDoc) (tm : gmap Report.totals_key (float * float))
    (pt p : string) (i : option string) :
  String.eqb (lower (Report.r_eligibility_status (Report.build_row s tm pt p i))) "eligible" = true →
  Report.r_eligibility_status (Report.build_row s tm pt p i) = "Eligible".
Proof.
  cbn [Report.build_row Report.r_eligibility_status].
  by destruct (Report.cell_eligible _ _ _).
Qed.

(** The filters are conjunctive and their bounds inclusive: every row the
    report returns passes each of the fourteen filters that is set.  It
    names the scheme (after stripping), the party type (after stripping),
    the party and the apply-on mode asked for; its item holds the search
    term, stripped, whatever the case of the letters; its validity window,
    where it has the bound, ends no earlier than the from-date and starts no
    later than the to-date; it lies within each amount, quantity and
    discount bound; and with the only-eligible toggle on it is labelled
    Eligible. *)
Theorem returned_rows_satisfy_every_filter
    (ord : SetOrder) (cat : Catalog) (store : list SchemeDoc)
    (db_sql : Report.TotalsQuery → list Report.TotalsRecord)
    (filters : Report.Filters) (row : Report.ReportRow) :
  row ∈ Report.get_data ord cat store db_sql filters →
  (∀ b, Report.f_min_invoice_amount filters = Some b → b ≤ Report.r_invoice_amount row)
  ∧ (∀ b, Report.f_max_invoice_amount filters = Some b → Report.r_invoice_amount row ≤ b)
  ∧ (∀ b, Report.f_min_invoice_qty filters = Some b → b ≤ Report.r_invoice_qty row)
  ∧ (∀ b, Report.f_max_invoice_qty filters = Some b → Report.r_invoice_qty row ≤ b)
  ∧ (∀ b, Report.f_discount_min filters = Some b → b ≤ Report.r_discount_percentage row)
  ∧ (∀ b, Report.f_discount_max filters = Some b → Report.r_discount_percentage row ≤ b)
  ∧ (∀ v, Report.f_party_name filters = Some v → v ≠ "" → Report.r_party_name row = v)
  ∧ (∀ v, Report.f_party_type filters = Some v → v ≠ "" →
          strip (Report.r_party_type row) = v)
  ∧ (∀ v, Report.f_apply_on filters = Some v → v ≠ "" → Report.r_apply_on row = v)
  ∧ (Report.f_show_only_eligible filters = true →
     Report.r_eligibility_status row = "Eligible")
  ∧ (∀ v, Report.f_scheme_name filters = Some v → v ≠ "" →
          strip (Report.r_scheme_name row) = v)
  ∧ (∀ v, Report.f_item_or_group filters = Some v → v ≠ "" →
          contains (lower (Report.r_item_or_group row)) (lower (strip v)) = true)
  ∧ (∀ d t, Report.f_from_date filters = Some d → Report.r_valid_to row = Some t →
            (d ≤ t)%Z)
  ∧ (∀ d f, Report.f_to_date filters = Some d → Report.r_valid_from row = Some f →
            (f ≤ d)%Z).
Proof.
  intros [Hkeep (s & tm & pt & p & i & _ & Hrow)]%get_data_rows.
  unfold Report.keep_row in Hkeep.
  apply andb_prop in Hkeep as [Hkeep Helig].
  apply andb_prop in Hkeep as [Hkeep Hdmax].
  apply andb_prop in Hkeep as [Hkeep Hdmin].
  apply andb_prop in Hkeep as [Hkeep Hqmax].
  apply andb_prop in Hkeep as [Hkeep Hqmin].
  apply andb_prop in Hkeep as [Hkeep Hamax].
  apply andb_prop in Hkeep as [Hkeep Hamin].
  apply andb_prop in Hkeep as [Hkeep Hto].
  apply andb_prop in Hkeep as [Hkeep Hfrom].
  apply andb_prop in Hkeep as [Hkeep Hitem].
  apply andb_prop in Hkeep as [Hkeep Happly].
  apply andb_prop in Hkeep as [Hkeep Hpname].
  apply andb_prop in Hkeep as [Hsname Hptype].
  repeat split.
  - intros b Hb. rewrite Hb, leb_or_zero_r in Hamin. exact Hamin.
  - intros b Hb. rewrite Hb, leb_or_zero_l in Hamax. exact Hamax.
  - intros b Hb. rewrite Hb, leb_or_zero_r in Hqmin. exact Hqmin.
  - intros b Hb. rewrite Hb, leb_or_zero_l in Hqmax. exact Hqmax.
  - intros b Hb. rewrite Hb, leb_or_zero_r in Hdmin. exact Hdmin.
  - intros b Hb. rewrite Hb, leb_or_zero_l in Hdmax. exact Hdmax.
  - intros v Hv Hne. apply truthy_str_spec in Hne.
    unfold Report.opt_filter in Hpname. rewrite Hv, Hne in Hpname.
    by apply String.eqb_eq.
  - intros v Hv Hne. apply truthy_str_spec in Hne.
    unfold Report.opt_filter in Hptype. rewrite Hv, Hne in Hptype.
    by apply String.eqb_eq.
  - intros v Hv Hne. apply truthy_str_spec in Hne.
    unfold Report.opt_filter in Happly. rewrite Hv, Hne in Happly.
    by apply String.eqb_eq.
  - intros Hon. rewrite Hon in Helig. subst row. by apply build_row_status.
  - intros v Hv Hne. apply truthy_str_spec in Hne.
    unfold Report.opt_filter in Hsname. rewrite Hv, Hne in Hsname.
    by apply String.eqb_eq.
  - intros v Hv Hne. apply truthy_str_spec in Hne.
    unfold Report.opt_filter in Hitem. rewrite Hv, Hne in Hitem. exact Hitem.
  - intros d t Hd Ht. rewrite Hd, Ht in Hfrom. by apply bool_decide_eq_true in Hfrom.
  - intros d f Hd Hf. rewrite Hd, Hf in Hto. by apply bool_decide_eq_true in Hto.
Qed.

Lemma returned_rows_satisfy_every_filter_witness :
  let filters :=
    {| Report.f_scheme_name := Some "S1"; Report.f_party_type := None;
       Report.f_party_name := None; Report.f_apply_on := None;
       Report.f_item_or_group := Some " item-a ";
       Report.f_from_date := Some 150%Z; Report.f_to_date := None;
       Report.f_min_invoice_amount := Some 1000; Report.f_max_invoice_amount := None;
       Report.f_min_invoice_qty := None; Report.f_max_invoice_qty := None;
       Report.f_discount_min := None; Report.f_discount_max := None;
       Report.f_show_only_eligible := true |} in
  let rows :=
    Report.get_data Samples.order Samples.catalog [Samples.S1; Samples.S3]
      Samples.sales_db filters in
  (Report.r_party_name <$> rows) = ["C1"]
  ∧ Forall (λ row, 1000 ≤ Report.r_invoice_amount row
                   ∧ Report.r_eligibility_status row = "Eligible"
                   ∧ strip (Report.r_scheme_name row) = "S1"
                   ∧ contains (lower (Report.r_item_or_group row)) "item-a" = true)
      rows.
Proof.
  intros filters rows. split; [by vm_compute|].
  apply Forall_forall. intros row Hrow.
  pose proof (returned_rows_satisfy_every_filter
                Samples.order _ _ _ filters row Hrow)
    as (Hmin & _ & _ & _ & _ & _ & _ & _ & _ & Helig & Hname & Hitem & _).
  split; [exact (Hmin 1000 eq_refl)|].
  split; [exact (Helig eq_refl)|].
  split; [exact (Hname "S1" eq_refl ltac:(discriminate))|].
  exact (Hitem " item-a " eq_refl ltac:(discriminate)).
Defined.

(** ** Historical totals and cells *)

(** The totals of a (party, item) key are those of the last result row
    filed under that key, where an empty party or item name is filed as
    none; a key with no result row has no totals. *)
Theorem totals_map_keeps_last_row_per_key
    (rows : list Report.TotalsRecord) (k : Report.totals_key) :
  Report.build_totals_map rows !! k
  = Report.totals_entry <$> last (filter (λ r, Report.record_key r = k) rows).
Proof.
  unfold Report.build_totals_map. rewrite foldl_totals_lookup.
  by destruct (last _).
Qed.

Lemma cell_eligible_zero (s : SchemeDoc) : Report.cell_eligible s 0 0 = false.
Proof.
  unfold Report.cell_eligible.
  destruct (String.eqb _ _); [apply ltb_zero_leb_zero|].
  destruct (String.eqb _ _); [apply ltb_zero_leb_zero|]. reflexivity.
Qed.

(** A cell with no totals shows amount and quantity zero and is never
    eligible, whatever the scheme's rule and thresholds. *)
Theorem cell_without_totals_is_not_eligible
    (s : SchemeDoc) (tm : gmap Report.totals_key (float * float))
    (party_type party_name : string) (item_code : option string) :
  tm !! (Some party_name, item_code) = None →
  let row := Report.build_row s tm party_type party_name item_code in
  Report.r_invoice_amount row = 0
  ∧ Report.r_invoice_qty row = 0
  ∧ Report.r_eligibility_status row = "Not Eligible".
Proof.
  intros Hnone. unfold Report.build_row.
  cbn [Report.r_invoice_amount Report.r_invoice_qty Report.r_eligibility_status].
  change (tm !! ((Some party_name, item_code) : Report.totals_key)) with
    (tm !! (Some party_name, item_code)).
  rewrite Hnone. cbn [default fst snd]. by rewrite cell_eligible_zero.
Qed.

Lemma cell_without_totals_is_not_eligible_witness :
  Report.r_eligibility_status
    (Report.build_row Samples.S1 ∅ "Customer" "C1" (Some "ITEM-A")) = "Not Eligible".
Proof.
  refine (proj2 (proj2 (cell_without_totals_is_not_eligible
                          Samples.S1 ∅ "Customer" "C1" (Some "ITEM-A") _))).
  reflexivity.
Defined.

(** ** Rows of a scheme that names its parties *)

Lemma elem_of_sorted (s : gset string) (x : string) : x ∈ sorted s ↔ x ∈ s.
Proof. unfold sorted. by rewrite merge_sort_Permutation, elem_of_elements. Qed.

Lemma str_le_total : Total str_le.
Proof. intros a b. apply String.leb_total. Qed.

Lemma sorted_Sorted (s : gset string) : Sorted str_le (sorted s).
Proof. apply (Sorted_merge_sort str_le (Total0 := str_le_total)). Qed.

Lemma sorted_NoDup (s : gset string) : NoDup (sorted s).
Proof. unfold sorted. rewrite merge_sort_Permutation. apply NoDup_elements. Qed.

Lemma declared_parties_sorted (s : SchemeDoc) (parties_dict : PartiesDict) :
  let declared := Report.declared_parties s parties_dict in
  snd declared ≠ [] →
  snd <$> snd declared
  = if String.eqb (fst declared) "Selling"
    then sorted (customers parties_dict)
    else sorted (suppliers parties_dict).
Proof.
  cbv zeta. unfold Report.declared_parties.
  destruct (String.eqb _ "Selling") eqn:Es; [|destruct (String.eqb _ "Buying") eqn:Eb];
    cbn [fst snd]; intros Hne; [| |done].
  - rewrite Es, <- list_fmap_compose. apply list_fmap_id.
  - rewrite Es, <- list_fmap_compose. apply list_fmap_id.
Qed.

Lemma declared_parties_names
    (cat : Catalog) (s : SchemeDoc) (pt p : string) :
  let parties_dict := Report._extract_party_values_from_scheme cat s in
  (pt, p) ∈ snd (Report.declared_parties s parties_dict) →
  p ≠ ""
  ∧ ((pt = "Customer" ∧ p ∈ customers parties_dict)
     ∨ (pt = "Supplier" ∧ p ∈ suppliers parties_dict)).
Proof.
  intros parties_dict. unfold Report.declared_parties.
  destruct (String.eqb _ "Selling"); [|destruct (String.eqb _ "Buying")]; cbn [snd].
  - intros (c & [= -> ->] & Hc%elem_of_sorted)%list_elem_of_fmap.
    pose proof Hc as [Hne _]%elem_of_normalize. auto.
  - intros (c & [= -> ->] & Hc%elem_of_sorted)%list_elem_of_fmap.
    pose proof Hc as [Hne _]%elem_of_normalize. auto.
  - by intros ?%elem_of_nil.
Qed.

Lemma concrete_parties_all (parties : list (string * string)) :
  (∀ pt p, (pt, p) ∈ parties → p ≠ "") →
  filter (λ pname, truthy_str pname = true) (snd <$> parties) = snd <$> parties.
Proof.
  induction parties as [|[pt p] l IH]; intros Hne; [done|].
  rewrite fmap_cons. cbn [snd].
  rewrite filter_cons_True
    by (apply truthy_str_spec, (Hne pt); by left).
  f_equal. apply IH. intros pt' p' Hin. apply (Hne pt'). by right.
Qed.

Lemma cells_party_names
    (s : SchemeDoc) (tm : gmap Report.totals_key (float * float))
    (parties : list (string * string)) (items : list (option string)) :
  (∀ pt p, (pt, p) ∈ parties → p ≠ "") →
  Report.r_party_name <$>
    ((λ c : string * string * option string,
        Report.build_row s tm (fst (fst c)) (snd (fst c)) (snd c))
       <$> Report.cells parties items)
  = (p ← parties; replicate (length items) (snd p)).
Proof.
  unfold Report.cells.
  induction parties as [|[pt p] l IH]; intros Hne; [done|].
  cbn [mbind list_bind]. rewrite !fmap_app.
  rewrite IH by (intros pt' p' Hin; apply (Hne pt'); by right).
  f_equal. cbn [snd].
  assert (Hp : truthy_str p = true) by (apply truthy_str_spec, (Hne pt); by left).
  clear IH Hne. induction items as [|i items IHi]; [done|].
  rewrite !fmap_cons. cbn [length replicate fst snd Report.build_row Report.r_party_name].
  rewrite Hp. f_equal. apply IHi.
Qed.

(** When a scheme names parties on its side, the report builds one row for
    each of them with each resolved item, whether or not the party has any
    sales: the rows are the cells of the declared parties, the query is
    restricted to these parties, and every row carries the name of a
    declared customer or supplier.  The parties come in sorted order: they
    are the customers of a selling scheme, or the suppliers of a buying
    scheme, each once, in ascending order of their names. *)
Theorem declared_parties_each_get_their_rows
    (ord : SetOrder) (cat : Catalog) (db_sql : Report.TotalsQuery → list Report.TotalsRecord)
    (filters : Report.Filters) (s : SchemeDoc) :
  let parties_dict := Report._extract_party_values_from_scheme cat s in
  let declared := Report.declared_parties s parties_dict in
  let items := Report.resolved_items cat s in
  let query :=
    Report.totals_query s (fst declared) (snd declared) items
      (Report.f_from_date filters) (Report.f_to_date filters) in
  let totals_map := Report.build_totals_map (db_sql query) in
  let rows := Report.scheme_rows ord cat db_sql filters s in
  snd declared ≠ [] →
  rows = (λ c : string * string * option string,
            Report.build_row s totals_map (fst (fst c)) (snd (fst c)) (snd c))
         <$> Report.cells (snd declared) items
  ∧ Report.q_parties query = snd <$> snd declared
  ∧ Report.r_party_name <$> rows
    = (p ← snd declared; replicate (length items) (snd p))
  ∧ (∀ row, row ∈ rows →
            Report.r_party_name row ∈ customers parties_dict
            ∨ Report.r_party_name row ∈ suppliers parties_dict)
  ∧ snd <$> snd declared
    = (if String.eqb (fst declared) "Selling"
       then sorted (customers parties_dict)
       else sorted (suppliers parties_dict))
  ∧ Sorted str_le (snd <$> snd declared)
  ∧ NoDup (snd <$> snd declared).
Proof.
  intros parties_dict declared items query totals_map rows Hsome.
  pose proof (declared_parties_sorted s parties_dict Hsome) as Hsorted.
  cbv zeta in Hsorted. fold declared in Hsorted.
  pose proof (declared_parties_names cat s) as Hnames. cbn zeta in Hnames.
  fold parties_dict in Hnames. fold declared in Hnames.
  assert (Hrows : rows = (λ c : string * string * option string,
                            Report.build_row s totals_map (fst (fst c)) (snd (fst c)) (snd c))
                         <$> Report.cells (snd declared) items).
  { unfold rows, Report.scheme_rows. fold parties_dict. fold declared. fold items.
    unfold totals_map, query, Report._get_totals_for_scheme.
    destruct declared as [side parties]. cbn [fst snd] in *.
    by rewrite bool_decide_eq_false_2. }
  split; [done|]. split; [|split; [|split; [|split; [done|split]]]].
  - unfold query, Report.totals_query. cbn [Report.q_parties].
    apply concrete_parties_all. intros pt p Hin. by destruct (Hnames pt p Hin).
  - rewrite Hrows. apply cells_party_names.
    intros pt p Hin. by destruct (Hnames pt p Hin).
  - intros row. rewrite Hrows.
    intros ([[pt p] i] & -> & Hc)%list_elem_of_fmap.
    unfold Report.cells in Hc.
    apply list_elem_of_bind in Hc as ([pt' p'] & Hci & Hp).
    apply list_elem_of_fmap in Hci as (i' & [= -> -> ->] & _).
    destruct (Hnames _ _ Hp) as [Hne%truthy_str_spec Hside].
    cbn [fst snd Report.build_row Report.r_party_name]. rewrite Hne.
    destruct Hside as [[_ ?]|[_ ?]]; auto.
  - rewrite Hsorted. destruct (String.eqb _ _); apply sorted_Sorted.
  - rewrite Hsorted. destruct (String.eqb _ _); apply sorted_NoDup.
Qed.

Lemma declared_parties_each_get_their_rows_witness :
  Report.r_party_name <$>
    Report.scheme_rows Samples.order Samples.catalog Samples.empty_db Samples.no_filters Samples.S5
  = ["C1"; "C2"].
Proof.
  refine (proj1 (proj2 (proj2 (declared_parties_each_get_their_rows
            Samples.order Samples.catalog Samples.empty_db Samples.no_filters Samples.S5 _)))).
  by vm_compute.
Defined.

(** ** The report's scope against the hook's *)

Lemma report_extract_subseteq (rows : child_rows) (possible_keys : list string) (x : string) :
  x ∈ Report._extract_values_from_child_rows rows possible_keys →
  x ∈ Doctype._extract_values_from_child_rows rows possible_keys.
Proof.
  destruct rows as [l|l]; cbn [Report._extract_values_from_child_rows
                               Doctype._extract_values_from_child_rows]; [|done].
  rewrite !elem_of_list_to_set, list_elem_of_filter. by intros [_ ?].
Qed.

Lemma item_scope_membership_helper (cat : Catalog) (s : SchemeDoc) (x : string) :
  x ∈ Doctype._extract_values_from_child_rows (promotional_scheme_on_item_code s)
        ["item_code"; "item"]
  ∨ (∃ r g, r ∈ cat_items cat ∧ it_name r = x ∧ it_group r = Some g
            ∧ g ∈ Doctype._extract_values_from_child_rows
                    (promotional_scheme_on_item_group s) ["item_group"; "group"]) →
  x ∈ Doctype._extract_item_codes_from_scheme cat s.
Proof.
  unfold Doctype._extract_item_codes_from_scheme. rewrite <- elem_of_items_by_group.
  destruct (truthy_set _) eqn:Hg.
  - rewrite elem_of_union, elem_of_list_to_set. done.
  - apply truthy_set_false in Hg. rewrite Hg.
    intros [?|Hin]; [done|].
    apply elem_of_items_by_group in Hin as (r & g & _ & _ & _ & Hin).
    by apply not_elem_of_empty in Hin.
Qed.

(** The sets the report resolves never hold the empty string: not the five
    party dimensions, and not the item codes. *)
Theorem report_scope_holds_no_empty_name (cat : Catalog) (s : SchemeDoc) :
  let parties_dict := Report._extract_party_values_from_scheme cat s in
  ("" ∉ customers parties_dict)
  ∧ ("" ∉ customer_groups parties_dict)
  ∧ ("" ∉ territories parties_dict)
  ∧ ("" ∉ suppliers parties_dict)
  ∧ ("" ∉ supplier_groups parties_dict)
  ∧ ("" ∉ Report._extract_item_codes_from_scheme cat s)
  ∧ (Some "" ∉ Report.resolved_items cat s).
Proof.
  cbn zeta. unfold Report._extract_party_values_from_scheme,
    Report._extract_item_codes_from_scheme.
  cbn [customers customer_groups territories suppliers supplier_groups].
  repeat split; try (intros [Hne _]%elem_of_normalize; done).
  unfold Report.resolved_items, Report._extract_item_codes_from_scheme.
  destruct (truthy_set _).
  - intros (x & [= <-] & [Hne _]%elem_of_sorted%elem_of_normalize)%list_elem_of_fmap. done.
  - intros [= ]%list_elem_of_singleton.
Qed.

(** Every item the report lists for a scheme is a non-empty code of the
    item scope the hook resolves for it. *)
Theorem report_items_are_hook_items (cat : Catalog) (s : SchemeDoc) (x : string) :
  x ∈ Report._extract_item_codes_from_scheme cat s →
  x ≠ "" ∧ x ∈ Doctype._extract_item_codes_from_scheme cat s.
Proof.
  unfold Report._extract_item_codes_from_scheme.
  intros [Hne Hx]%elem_of_normalize. split; [done|].
  apply item_scope_membership_helper.
  destruct (truthy_set _) eqn:Hg.
  - apply elem_of_union in Hx as [Hx|Hx]; [left; by apply report_extract_subseteq|].
    right. apply elem_of_list_to_set, elem_of_items_by_group in Hx
      as (r & g & Hr & Hn & Hgr & Hin).
    exists r, g. repeat split; try done. by apply report_extract_subseteq.
  - left. by apply report_extract_subseteq.
Qed.

Lemma report_items_are_hook_items_witness :
  "ITEM-A" ∈ Doctype._extract_item_codes_from_scheme Samples.catalog Samples.S1.
Proof.
  refine (proj2 (report_items_are_hook_items Samples.catalog Samples.S1 "ITEM-A" _)).
  apply (bool_decide_unpack _). by vm_compute.
Defined.

(** ** The report without filters *)

Lemma bind_ext_in {A B : Type} (f g : A → list B) (l : list A) :
  (∀ x, x ∈ l → f x = g x) → l ≫= f = l ≫= g.
Proof.
  induction l as [|x l IH]; intros H; [done|].
  cbn [mbind list_bind]. rewrite (H x) by (by left).
  f_equal. apply IH. intros y Hy. apply H. by right.
Qed.

Lemma select_schemes_empty_filters (store : list SchemeDoc) :
  Report.select_schemes store Report.empty_filters = name <$> store.
Proof.
  unfold Report.select_schemes. f_equal.
  induction store as [|s l IH]; [done|].
  rewrite filter_cons_True by done. by rewrite IH.
Qed.

Lemma apply_report_filters_empty (rows : list Report.ReportRow) :
  Report._apply_report_filters rows Report.empty_filters = rows.
Proof.
  unfold Report._apply_report_filters.
  induction rows as [|r l IH]; [done|].
  rewrite filter_cons_True by apply keep_row_empty_filters. by rewrite IH.
Qed.

(** Run without filters on a store with unique scheme names, the report
    returns its fourteen columns and, scheme after scheme in the order in
    which the scheme query lists them, all the rows built for each scheme;
    nothing is dropped. *)
Theorem execute_without_filters_returns_all_rows
    (ord : SetOrder) (cat : Catalog) (store : list SchemeDoc)
    (db_sql : Report.TotalsQuery → list Report.TotalsRecord) :
  NoDup (name <$> store) →
  Report.execute ord cat store db_sql None
  = (Report.get_columns,
     s ← store; Report.scheme_rows ord cat db_sql Report.empty_filters s)
  ∧ length (fst (Report.execute ord cat store db_sql None)) = 14%nat.
Proof.
  intros Hnd. split; [|done].
  unfold Report.execute, Report.get_data. cbn [default]. f_equal.
  rewrite apply_report_filters_empty, select_schemes_empty_filters.
  rewrite list_fmap_bind. apply bind_ext_in.
  intros s Hs. cbn [compose]. by rewrite (get_doc_unique store s Hnd Hs).
Qed.

Lemma execute_without_filters_returns_all_rows_witness :
  (λ row, (Report.r_scheme_name row, Report.r_party_name row)) <$>
    snd (Report.execute Samples.order Samples.catalog [Samples.S5; Samples.S3]
           Samples.sales_db None)
  = [("S5", "C1"); ("S5", "C2"); ("S3", "C1")].
Proof.
  assert (Hnd : NoDup (name <$> [Samples.S5; Samples.S3])).
  { apply (bool_decide_unpack _). by vm_compute. }
  rewrite (proj1 (execute_without_filters_returns_all_rows
                    Samples.order Samples.catalog [Samples.S5; Samples.S3]
                    Samples.sales_db Hnd)).
  by vm_compute.
Defined.

Lemma hook_keeps_header_and_lines_witness :
  let a := Samples.line "ITEM-A" 1 1200 1200 in
  let doc := Samples.sales_invoice "C1" [a] in
  let doc' := Doctype.hs_doc
                (Doctype.apply_promotional_schemes Samples.host Samples.catalog [Samples.S1] 150%Z doc) in
  ∃ it', items doc' !! 0%nat = Some it' ∧ Inv.same_but_discount a it'.
Proof.
  intros a doc doc'.
  exact (proj2 (proj2 (hook_keeps_header_and_lines
                         Samples.host Samples.catalog [Samples.S1] 150%Z doc))
           0%nat a eq_refl).
Defined.
